(** * Verification harness of mynt: the three Playwright scenarios

    Shallow embedding of [verification/verify_window_center.py],
    [verification/verify_activity.py] and
    [verification/verify_context_menu.py].

    - Python floats are IEEE-754 binary64 values, modelled by the
      [spec_float] of the core library at precision 53 and maximal
      exponent 1024; Python ints are unbounded, modelled by [Z], and
      their true division is the correctly rounded quotient.
    - The browser driver is an external collaborator: every driver call
      either returns a value or raises.  Its behaviour is a [world], a
      function from the history of the run and the call to an outcome; the
      scripts are programs of a state-and-exception monad that record each
      call, its outcome and each printed line in a trace. *)

From Stdlib Require Import QArith Qabs Qpower.
From Stdlib Require Import ZArith Bool List String Ascii Lia.
From Stdlib Require Import Floats.SpecFloat.
Import ListNotations.
Open Scope Z_scope.
Open Scope string_scope.
Open Scope list_scope.

(* ================================================================== *)
(** ** Binary64 arithmetic as Python uses it *)

Module Float64.

Definition prec : Z := 53.
Definition emax : Z := 1024.

Definition float := spec_float.

(** [float(n)] for a Python int: the nearest binary64 value (exact for
    |n| <= 2^53, the range of pixel counts). *)
Definition of_Z (n : Z) : float := binary_normalize prec emax n 0 false.

Definition sub (x y : float) : float := SFsub prec emax x y.
Definition div (x y : float) : float := SFdiv prec emax x y.
Definition abs (x : float) : float := SFabs x.
Definition ltb (x y : float) : bool := SFltb x y.
Definition eqb (x y : float) : bool := SFeqb x y.

(** A Python int as the dividend or divisor of a division: the integer
    itself as mantissa, at exponent 0, not rounded to 53 bits. *)
Definition raw_int (n : Z) : float :=
  match n with
  | Z0 => S754_zero false
  | Zpos p => S754_finite false p 0
  | Zneg p => S754_finite true p 0
  end.

(** [a / b] for Python ints, [b] not zero: the quotient of the two
    integers rounded once, to nearest even.  It is infinite exactly where
    the rounded quotient leaves the binary64 range, which is where CPython
    raises OverflowError. *)
Definition int_true_div (a b : Z) : float := div (raw_int a) (raw_int b).

(** Neither an infinity nor a NaN. *)
Definition is_finite (x : float) : bool :=
  match x with
  | S754_zero _ | S754_finite _ _ _ => true
  | S754_infinity _ | S754_nan => false
  end.

Definition zero : float := S754_zero false.

(** The rational number a finite binary64 value stands for. *)
Definition to_Q (x : float) : option Q :=
  match x with
  | S754_zero _ => Some (0 # 1)
  | S754_finite s m e =>
      Some (inject_Z (cond_Zopp s (Zpos m)) * Qpower (2 # 1) e)%Q
  | S754_infinity _ | S754_nan => None
  end.

(** [x] is the binary64 number whose value is exactly [q]. *)
Definition represents (x : float) (q : Q) : Prop :=
  valid_binary prec emax x = true
  /\ exists v, to_Q x = Some v /\ (v == q)%Q.

(** [represents x (num # den)], decided on integers: the value
    (+/-m) * 2^e equals num/den. *)
Definition is_exactly (x : float) (num : Z) (den : positive) : bool :=
  valid_binary prec emax x
  && match x with
     | S754_zero _ => Z.eqb num 0
     | S754_finite s m e =>
         if Z.leb e 0
         then Z.eqb (cond_Zopp s (Zpos m) * Zpos den) (num * 2 ^ (- e))
         else Z.eqb (cond_Zopp s (Zpos m) * 2 ^ e * Zpos den) num
     | S754_infinity _ | S754_nan => false
     end.

(** [f] holds of the [n] integers from [lo] on. *)
Fixpoint all_from (f : Z -> bool) (lo : Z) (n : nat) (acc : bool) : bool :=
  match n with
  | O => acc
  | S n' => all_from f (lo + 1) n' (acc && f lo)
  end.

End Float64.

Import Float64.

(* ================================================================== *)
(** ** Data of the driver interface *)

(** A bounding box as [Locator.bounding_box()] reports it. *)
Record BoundingBox := mkBox {
  box_x : float;
  box_y : float;
  box_width : float;
  box_height : float
}.

(** [page.viewport_size]. *)
Record ViewportSize := mkViewport {
  vp_width : Z;
  vp_height : Z
}.

(** A page object; the only field the scripts read is [viewport_size]. *)
Record Page := mkPage {
  viewport_size : option ViewportSize
}.

Inductive mouse_button := LeftButton | RightButton.

(** Locators, built without talking to the browser. *)
Inductive locator :=
| Css (selector : string)                       (* page.locator(sel) *)
| ByText (text : string)                        (* page.get_by_text(t) *)
| ByRole (role name : string)                   (* page.get_by_role(r, name=n) *)
| First (l : locator)                           (* l.first *)
| Nth (n : nat) (l : locator)                   (* l.nth(n) *)
| FilterHasText (l : locator) (text : string).  (* l.filter(has_text=t) *)

(** Python exceptions.  [BaseExc] stands for the exceptions that are not
    subclasses of [Exception] (KeyboardInterrupt, SystemExit). *)
Inductive exn :=
| PlaywrightError (msg : string)
| TimeoutError (msg : string)
| AssertionError (msg : string)
| OverflowError (msg : string)
| ZeroDivisionError (msg : string)
| BaseExc (name : string).

(** [except Exception] catches exactly these. *)
Definition is_Exception (e : exn) : bool :=
  match e with
  | BaseExc _ => false
  | _ => true
  end.

(** Bare [except:] catches everything. *)
Definition any_exn (e : exn) : bool := true.

(** The calls the scripts make to the driver, indexed by the type of the
    value they return. *)
Inductive call : Type -> Type :=
| PlaywrightStart : call unit                   (* sync_playwright().__enter__ *)
| PlaywrightStop : call unit                    (* sync_playwright().__exit__ *)
| Launch (headless : bool) : call unit          (* p.chromium.launch *)
| NewContext (viewport : option ViewportSize) : call unit
| NewPage (viewport : option ViewportSize) : call unit
| AddInitScript (script : string) : call unit
| Goto (url : string) (timeout : option Z) : call unit
| Evaluate (script : string) : call unit
| WaitForSelector (selector : string) (timeout : option Z) : call unit
| WaitForTimeout (ms : Z) : call unit
| Sleep (seconds : Z) : call unit               (* time.sleep *)
| Click (l : locator) (b : mouse_button) : call unit
| MouseMove (x y : Z) : call unit
| MouseDown (b : mouse_button) : call unit
| MouseUp (b : mouse_button) : call unit
| MouseClick (x y : Z) : call unit
| IsVisible (l : locator) : call bool
| Count (l : locator) : call nat
| GetBoundingBox (l : locator) : call (option BoundingBox)
| ExpectVisible (l : locator) (timeout : option Z) : call unit
| Screenshot (path : string) : call unit
| BrowserClose : call unit.

Inductive outcome (A : Type) :=
| Returned (a : A)
| Raised (e : exn).
Arguments Returned {A} a.
Arguments Raised {A} e.

(** What the scripts write to standard output. *)
Inductive line :=
| Text (s : string)                             (* a literal line *)
| WithError (prefix : string) (e : exn)         (* f"{prefix}{e}" *)
| WindowBoxLine (b : BoundingBox)               (* f"Window Box: {box}" *)
| ViewportLine (v : ViewportSize)               (* f"Viewport: {viewport}" *)
| ExpectedLine (ex ey : float).                 (* f"Expected X ~ {ex}, Y ~ {ey}" *)

Inductive event :=
| Called {A : Type} (c : call A) (r : outcome A)
| Printed (l : line).

(** The history of a run, in chronological order. *)
Definition history := list event.

Definition world := history -> forall A : Type, call A -> outcome A.

(* ================================================================== *)
(** ** The monad of the scripts *)

Definition M (A : Type) : Type := world -> history -> history * outcome A.

Definition ret {A} (a : A) : M A := fun _ h => (h, Returned a).

Definition bind {A B} (m : M A) (k : A -> M B) : M B :=
  fun w h =>
    match m w h with
    | (h', Returned a) => k a w h'
    | (h', Raised e) => (h', Raised e)
    end.

Declare Scope script_scope.
Delimit Scope script_scope with script.
Notation "x <- c1 ;; c2" := (bind c1 (fun x => c2))
  (at level 61, c1 at next level, right associativity) : script_scope.
Notation "c1 ;; c2" := (bind c1 (fun _ => c2))
  (at level 61, right associativity) : script_scope.
Open Scope script_scope.

(** A driver call: ask the world, record call and outcome. *)
Definition perform {A} (c : call A) : M A :=
  fun w h => let r := w h A c in (h ++ [Called c r], r).

Definition print (l : line) : M unit :=
  fun _ h => (h ++ [Printed l], Returned tt).

(** [try: body except <catches> as e: handler e]. *)
Definition try_except {A} (body : M A) (catches : exn -> bool)
    (handler : exn -> M A) : M A :=
  fun w h =>
    match body w h with
    | (h', Returned a) => (h', Returned a)
    | (h', Raised e) => if catches e then handler e w h' else (h', Raised e)
    end.

(** [try: body finally: final].  An exception of [final] replaces the
    pending outcome of [body]. *)
Definition try_finally {A} (body : M A) (final : M unit) : M A :=
  fun w h =>
    match body w h with
    | (h', r) =>
        match final w h' with
        | (h'', Returned _) => (h'', r)
        | (h'', Raised e) => (h'', Raised e)
        end
    end.

(** [raise e]. *)
Definition raise {A} (e : exn) : M A := fun _ h => (h, Raised e).

(** [a / b] on ints, with the two exceptions of CPython. *)
Definition true_divide (a b : Z) : M float :=
  if Z.eqb b 0 then raise (ZeroDivisionError "division by zero")
  else if is_finite (int_true_div a b) then ret (int_true_div a b)
  else raise (OverflowError "integer division result too large for a float").

(** [with sync_playwright() as p: body]. *)
Definition with_sync_playwright {A} (body : M A) : M A :=
  perform PlaywrightStart ;;
  try_finally body (perform PlaywrightStop).

(** The trace and the outcome of a run from the empty history. *)
Definition trace {A} (m : M A) (w : world) : list event := fst (m w []).
Definition result {A} (m : M A) (w : world) : outcome A := snd (m w []).

(* ================================================================== *)
(** ** Strings of the scripts *)

Definition dquote : string := String (ascii_of_nat 34) EmptyString.
Definition newline : string := String (ascii_of_nat 10) EmptyString.

(** [json.dumps] of a flat dict of strings, with Python's separators. *)
Fixpoint json_dumps_items (kvs : list (string * string)) : string :=
  match kvs with
  | [] => ""
  | [(k, v)] => (dquote ++ k ++ dquote ++ ": " ++ dquote ++ v ++ dquote)%string
  | (k, v) :: rest =>
      (dquote ++ k ++ dquote ++ ": " ++ dquote ++ v ++ dquote ++ ", "
       ++ json_dumps_items rest)%string
  end.

Definition json_dumps (kvs : list (string * string)) : string :=
  ("{" ++ json_dumps_items kvs ++ "}")%string.

(** The lines of a triple-quoted literal, joined as Python reads them. *)
Definition joined (ls : list string) : string := String.concat newline ls.

(** [needle in hay]. *)
Definition contains (needle hay : string) : bool :=
  match index 0 needle hay with
  | Some _ => true
  | None => false
  end.


(* ================================================================== *)
(** ** verify_window_center.py *)

Module WindowCenter.

(** [auth_data] of the script. *)
Definition auth_token : string := "fake-token-for-testing".
Definition auth_user : list (string * string) :=
  [("username", "admin"); ("role", "admin")].

(** The f-string passed to [page.evaluate]. *)
Definition seed_script : string :=
joined
  [ "";
    ("        localStorage.setItem('auth_token', '" ++ auth_token ++ "');")%string;
    ("        localStorage.setItem('user', '" ++ json_dumps auth_user ++ "');")%string;
    "    " ].

Definition window_selector : string := ".desktop-window".

(** The comparison of line 53 with its operands as parameters: the
    script runs it at tolerance 5.  [<] between a float and an int
    compares their exact values, so the right operand is the binary64
    value of the tolerance. *)
Definition boundingBoxWithin (tolerance : float)
    (actual_x actual_y expected_x expected_y : float) : bool :=
  ltb (abs (sub actual_x expected_x)) tolerance
  && ltb (abs (sub actual_y expected_y)) tolerance.

(** What lines 47 and 48 assign, for an 800x600 window, when the
    divisions do not overflow. *)
Definition expected_x (viewport : ViewportSize) : float :=
  int_true_div (vp_width viewport - 800) 2.
Definition expected_y (viewport : ViewportSize) : float :=
  int_true_div (vp_height viewport - 600) 2.

(** The condition of line 53. *)
Definition is_centered (box : BoundingBox) (viewport : ViewportSize) : bool :=
  boundingBoxWithin (of_Z 5) (box_x box) (box_y box)
    (expected_x viewport) (expected_y viewport).

Definition success_line : line :=
  Text "VERIFICATION SUCCESS: Window is centered.".
Definition failure_line : line :=
  Text "VERIFICATION FAILURE: Window is not centered.".

(** Lines 42 to 56: the programmatic check on the observed box. *)
Definition check_coordinates (box : option BoundingBox)
    (viewport : option ViewportSize) : M unit :=
  match box, viewport with
  | Some box, Some viewport =>
      print (WindowBoxLine box) ;;
      print (ViewportLine viewport) ;;
      (* Expected center (800x600 window) *)
      ex <- true_divide (vp_width viewport - 800) 2 ;;
      ey <- true_divide (vp_height viewport - 600) 2 ;;
      print (ExpectedLine ex ey) ;;
      (* Check if within 5px *)
      if boundingBoxWithin (of_Z 5) (box_x box) (box_y box) ex ey
      then print success_line
      else print failure_line
  | _, _ => ret tt
  end.

Definition verify_window_centering (page : Page) : M unit :=
  (* 1. Bypass authentication *)
  perform (Goto "http://localhost:5173/login" None) ;;
  perform (Evaluate seed_script) ;;
  (* 2. Go to desktop *)
  perform (Goto "http://localhost:5173/desktop" None) ;;
  perform (WaitForSelector ".desktop-icon" None) ;;
  (* 3. Open an app *)
  perform (Click (First (FilterHasText (Css "button.desktop-icon") "Settings"))
             LeftButton) ;;
  (* 4. Wait for window to appear *)
  perform (WaitForSelector window_selector None) ;;
  (* 5. Take screenshot *)
  perform (Screenshot "verification/verification.png") ;;
  (* 6. Verify coordinates programmatically *)
  box <- perform (GetBoundingBox (First (Css window_selector))) ;;
  check_coordinates box (viewport_size page).

Definition main_viewport : ViewportSize := mkViewport 1280 800.

(** The [try / except Exception / finally] statement of [__main__]. *)
Definition guarded (page : Page) : M unit :=
try_finally
  (try_except (verify_window_centering page) is_Exception
     (fun e =>
        print (WithError "Error: " e) ;;
        perform (Screenshot "verification/error.png")))
  (perform BrowserClose).

(** The [__main__] block. *)
Definition main : M unit :=
with_sync_playwright
  (perform (Launch true) ;;
   (* Set a fixed viewport size to make calculation deterministic *)
   perform (NewPage (Some main_viewport)) ;;
   guarded (mkPage (Some main_viewport))).

End WindowCenter.

(* ================================================================== *)
(** ** verify_activity.py *)

Module Activity.

Definition seed_script : string :=
joined
  [ "";
    "            localStorage.setItem('auth_token', 'mock-token');";
    "            localStorage.setItem('user', JSON.stringify({";
    "                username: 'admin',";
    "                isAdmin: true,";
    "                accountType: 'system'";
    "            }));";
    "        " ].

Definition activity_icon : locator :=
First (ByRole "button" "Activity Monitor").

(** The statements of the [try] block. *)
Definition checks : M unit :=
(* Navigate to desktop *)
perform (Goto "http://localhost:5173/desktop" None) ;;
(* Wait for desktop to load *)
perform (ExpectVisible (ByText "Mynt NAS") (Some 10000)) ;;
(* Find Activity Monitor icon and click it *)
perform (ExpectVisible activity_icon None) ;;
perform (Click activity_icon LeftButton) ;;
(* Wait for window to open *)
perform (ExpectVisible (Nth 1 (ByText "Activity Monitor")) None) ;;
(* Wait for content *)
perform (ExpectVisible (ByRole "button" "CPU") None) ;;
perform (ExpectVisible (ByRole "button" "Memory") None) ;;
(* Check table headers *)
perform (ExpectVisible (ByText "Process Name") None) ;;
perform (ExpectVisible (ByText "% CPU") None) ;;
(* Take screenshot *)
perform (Sleep 1) ;;
perform (Screenshot "verification/activity_monitor.png") ;;
print (Text "Screenshot captured").

(** The [try / except Exception / finally] statement. *)
Definition guarded : M unit :=
try_finally
  (try_except checks is_Exception
     (fun e =>
        print (WithError "Error: " e) ;;
        perform (Screenshot "verification/error.png")))
  (perform BrowserClose).

Definition verify_activity_monitor : M unit :=
with_sync_playwright
  (perform (Launch true) ;;
   (* Setup context with localStorage for auth *)
   perform (NewContext None) ;;
   perform (NewPage None) ;;
   perform (AddInitScript seed_script) ;;
   guarded).

End Activity.

(* ================================================================== *)
(** ** verify_context_menu.py *)

Module ContextMenu.

Definition seed_script : string :=
joined
  [ "() => {";
    "            localStorage.setItem('auth_token', 'mock-token');";
    "            localStorage.setItem('user', JSON.stringify({username: 'admin', is_admin: true}));";
    "        }" ].

(** The root of the context menu, found by its text. *)
Definition menu_selector : string := "text=Change Wallpaper".

Definition bg_success : line :=
Text "SUCCESS: Context menu appeared on desktop background.".
Definition bg_failure : line :=
Text "FAILURE: Context menu did NOT appear on desktop background.".
Definition menubar_failure : line :=
Text "FAILURE: Context menu appeared on Menu Bar.".
Definition menubar_success : line :=
Text "SUCCESS: Context menu did NOT appear on Menu Bar.".
Definition menubar_success_exn : line :=
Text "SUCCESS: Context menu did NOT appear on Menu Bar (exception).".
Definition icon_failure : line :=
Text "FAILURE: Context menu appeared on App Icon.".
Definition icon_success : line :=
Text "SUCCESS: Context menu did NOT appear on App Icon.".
Definition icon_success_exn : line :=
Text "SUCCESS: Context menu did NOT appear on App Icon (exception).".
Definition icon_warning : line :=
Text "WARNING: Could not find app icon to test.".
Definition dock_failure : line :=
Text "FAILURE: Context menu appeared on Dock.".
Definition dock_success : line :=
Text "SUCCESS: Context menu did NOT appear on Dock.".
Definition dock_success_exn : line :=
Text "SUCCESS: Context menu did NOT appear on Dock (exception).".
Definition dock_warning : line :=
Text "WARNING: Could not find dock to test.".

(** The [try: if is_visible(): FAILURE else: SUCCESS except: SUCCESS
    (exception)] block of the three negative probes. *)
Definition expect_no_menu (failure success success_exn : line) : M unit :=
try_except
  (visible <- perform (IsVisible (Css menu_selector)) ;;
   if visible then print failure else print success)
  any_exn
  (fun _ => print success_exn).

(** 1. Right click on desktop background (should show context menu),
    the screenshot and the click that closes the menu. *)
Definition probe_background : M unit :=
perform (MouseMove 500 500) ;;
perform (MouseDown RightButton) ;;
perform (MouseUp RightButton) ;;
try_except
  (perform (WaitForSelector menu_selector (Some 2000)) ;;
   print bg_success)
  any_exn
  (fun _ => print bg_failure) ;;
perform (Screenshot "verification/desktop_context_menu.png") ;;
perform (MouseClick 500 500) ;;
perform (WaitForTimeout 500).

(** 2. Right click on Menu Bar (should NOT show context menu). *)
Definition menubar : locator := Css ".desktop-menubar".

Definition probe_menubar : M unit :=
perform (Click menubar RightButton) ;;
expect_no_menu menubar_failure menubar_success menubar_success_exn.

(** 3. Right click on an App Icon (should NOT show context menu). *)
Definition app_icon : locator := First (Css ".flex-1.grid button").

Definition probe_app_icon : M unit :=
n <- perform (Count app_icon) ;;
if (0 <? n)%nat
then perform (Click app_icon RightButton) ;;
     expect_no_menu icon_failure icon_success icon_success_exn
else print icon_warning.

(** 4. Right click on Dock (should NOT show context menu). *)
Definition dock : locator := Css ".desktop-dock".

Definition probe_dock : M unit :=
n <- perform (Count dock) ;;
if (0 <? n)%nat
then perform (Click dock RightButton) ;;
     expect_no_menu dock_failure dock_success dock_success_exn
else print dock_warning.

(** The statements of the outer [try] block. *)
Definition checks : M unit :=
perform (Goto "http://localhost:5173/desktop" (Some 10000)) ;;
perform (WaitForSelector ".desktop-menubar" (Some 10000)) ;;
print (Text "Desktop loaded successfully.") ;;
probe_background ;;
probe_menubar ;;
probe_app_icon ;;
probe_dock ;;
perform (Screenshot "verification/no_context_menu.png").

(** The [try / except Exception / finally] statement. *)
Definition guarded : M unit :=
try_finally
  (try_except checks is_Exception
     (fun e =>
        print (WithError "Error during verification: " e) ;;
        (* Take screenshot of error state *)
        perform (Screenshot "verification/error.png")))
  (perform BrowserClose).

Definition verify_context_menu : M unit :=
with_sync_playwright
  (perform (Launch true) ;;
   (* Create a context with viewport similar to a desktop *)
   perform (NewContext (Some (mkViewport 1280 800))) ;;
   perform (NewPage None) ;;
   (* We need to navigate to the origin first to set localStorage *)
   perform (Goto "http://localhost:5173/" None) ;;
   perform (Evaluate seed_script) ;;
   guarded).

End ContextMenu.

(* ================================================================== *)
(** ** Reading a trace *)

Definition printed (l : string) (ev : event) : bool :=
  match ev with
  | Printed (Text s) => String.eqb s l
  | _ => false
  end.

Definition printed_line (l : line) (ev : event) : bool :=
  match l with
  | Text s => printed s ev
  | _ => false
  end.

Definition returned (ev : event) : bool :=
  match ev with
  | Called _ (Returned _) => true
  | _ => false
  end.

Definition is_close (ev : event) : bool :=
  match ev with
  | Called c _ => match c with BrowserClose => true | _ => false end
  | Printed _ => false
  end.

(** An attempt to save a screenshot at [path]. *)
Definition is_screenshot (path : string) (ev : event) : bool :=
  match ev with
  | Called c _ => match c with Screenshot p => String.eqb p path | _ => false end
  | Printed _ => false
  end.

Definition is_goto (ev : event) : bool :=
  match ev with
  | Called c _ => match c with Goto _ _ => true | _ => false end
  | Printed _ => false
  end.

Definition is_goto_to (url : string) (ev : event) : bool :=
  match ev with
  | Called c _ => match c with Goto u _ => String.eqb u url | _ => false end
  | Printed _ => false
  end.

(** The script writes both keys of the session seed. *)
Definition sets_session_keys (script : string) : bool :=
  contains "localStorage.setItem('auth_token', " script
  && contains "localStorage.setItem('user', " script.

(** [add_init_script] of a seeding script, completed. *)
Definition is_init_seed (ev : event) : bool :=
  match ev with
  | Called c (Returned _) =>
      match c with AddInitScript s => sets_session_keys s | _ => false end
  | _ => false
  end.

Definition is_add_init_script (ev : event) : bool :=
  match ev with
  | Called c _ => match c with AddInitScript _ => true | _ => false end
  | Printed _ => false
  end.

(** [page.evaluate] of a seeding script. *)
Definition is_eval_seed (ev : event) : bool :=
  match ev with
  | Called c _ =>
      match c with Evaluate s => sets_session_keys s | _ => false end
  | Printed _ => false
  end.

(** Any completed write of the session seed. *)
Definition is_seed_write (ev : event) : bool :=
  is_init_seed ev || (is_eval_seed ev && returned ev).


(** [page.mouse.click(500, 500)]. *)
Definition is_dismiss_click (ev : event) : bool :=
  match ev with
  | Called c _ =>
      match c with MouseClick x y => Z.eqb x 500 && Z.eqb y 500 | _ => false end
  | Printed _ => false
  end.

(** A right click on the locator with CSS selector [sel]
    ([First] of it for the app icon). *)
Definition is_right_click_on (sel : string) (ev : event) : bool :=
  match ev with
  | Called c _ =>
      match c with
      | Click (Css s) RightButton => String.eqb s sel
      | Click (First (Css s)) RightButton => String.eqb s sel
      | _ => false
      end
  | Printed _ => false
  end.

(** A visibility query that raised. *)
Definition raised_visibility (ev : event) : bool :=
  match ev with
  | Called c (Raised _) => match c with IsVisible _ => true | _ => false end
  | _ => false
  end.

(** A visibility query that returned a value. *)
Definition returned_visibility (ev : event) : bool :=
  match ev with
  | Called c (Returned _) => match c with IsVisible _ => true | _ => false end
  | _ => false
  end.

(** An [expect(...).to_be_visible()] that raised. *)
Definition raised_expect (ev : event) : bool :=
  match ev with
  | Called c (Raised _) => match c with ExpectVisible _ _ => true | _ => false end
  | _ => false
  end.

(** The box [bounding_box()] returned, when the call was reached and
    returned one. *)
Fixpoint observed_box (tr : list event) : option BoundingBox :=
  match tr with
  | [] => None
  | Called c r :: rest =>
      match c in call T return outcome T -> option BoundingBox with
      | GetBoundingBox _ =>
          fun r => match r with Returned b => b | Raised _ => None end
      | _ => fun _ => observed_box rest
      end r
  | Printed _ :: rest => observed_box rest
  end.

(** The verdict lines of the window-centering check. *)
Definition passes (tr : list event) : bool :=
  existsb (printed_line WindowCenter.success_line) tr.

Definition fails (tr : list event) : bool :=
  existsb (printed_line WindowCenter.failure_line) tr.

(** [P] events whose call returned. *)
Definition completed (P : event -> bool) (ev : event) : bool :=
  P ev && returned ev.

(** One of the lines in [ls]. *)
Definition printed_any (ls : list line) (ev : event) : bool :=
  existsb (fun l => printed_line l ev) ls.

(** The line of an [except Exception as e] handler. *)
Definition is_error_line (ev : event) : bool :=
  match ev with
  | Printed (WithError _ _) => true
  | _ => false
  end.

(** What a guarded block appends once its [try] body has ended with
    outcome [r]: the handler's line and screenshot attempt when an
    [Exception] was raised, then the call that closes the browser. *)
Definition exit_events (prefix : string) (r : outcome unit)
    (shot closed : outcome unit) : list event :=
  match r with
  | Raised e =>
      if is_Exception e
      then [Printed (WithError prefix e);
            Called (Screenshot "verification/error.png") shot]
      else []
  | Returned _ => []
  end ++ [Called BrowserClose closed].

(** The addresses the scripts navigate to. *)
Definition login_url : string := "http://localhost:5173/login".
Definition origin_url : string := "http://localhost:5173/".
Definition desktop_url : string := "http://localhost:5173/desktop".

(** The verdict line of the background probe, and the checkpoint
    screenshot that follows it. *)
Definition bg_verdict : event -> bool :=
  printed_any [ContextMenu.bg_success; ContextMenu.bg_failure].
Definition bg_checkpoint : event -> bool :=
  is_screenshot "verification/desktop_context_menu.png".

(** The right click that begins the menu-bar probe. *)
Definition on_menubar : event -> bool := is_right_click_on ".desktop-menubar".

(** Any line the dock probe can end with. *)
Definition dock_record : event -> bool :=
  printed_any [ContextMenu.dock_failure; ContextMenu.dock_success;
               ContextMenu.dock_success_exn; ContextMenu.dock_warning].

(** The line an exception in the visibility query of a negative probe
    leads to. *)
Definition success_exn : event -> bool :=
  printed_any [ContextMenu.menubar_success_exn; ContextMenu.icon_success_exn;
               ContextMenu.dock_success_exn].

Definition window_verdict : event -> bool :=
  printed_any [WindowCenter.success_line; WindowCenter.failure_line].

Definition activity_checkpoint : event -> bool :=
  is_screenshot "verification/activity_monitor.png".


Section TraceProperties.

Variables P Q : event -> bool.

(** No [P] event occurs after a [Q] event. *)
Fixpoint never_after (tr : list event) : bool :=
  match tr with
  | [] => true
  | ev :: rest =>
      if Q ev then forallb (fun e => negb (P e)) rest else never_after rest
  end.

(** Every [Q] event has an earlier [P] event. *)
Fixpoint preceded (tr : list event) : bool :=
  match tr with
  | [] => true
  | ev :: rest =>
      if Q ev then false else if P ev then true else preceded rest
  end.

(** Every [Q] event is immediately followed by a [P] event. *)
Fixpoint followed (tr : list event) : bool :=
  match tr with
  | [] => true
  | ev :: rest =>
      (if Q ev then match rest with nxt :: _ => P nxt | [] => false end
       else true)
      && followed rest
  end.

(** The three properties as monitors that read the trace event by
    event. *)
Inductive watch := Waiting | Seen | Broken.

Definition never_after_step (s : watch) (ev : event) : watch :=
  match s with
  | Waiting => if Q ev then Seen else Waiting
  | Seen => if P ev then Broken else Seen
  | Broken => Broken
  end.

Definition preceded_step (s : watch) (ev : event) : watch :=
  match s with
  | Waiting => if Q ev then Broken else if P ev then Seen else Waiting
  | Seen => Seen
  | Broken => Broken
  end.

(** [Seen]: the last event was a [Q] event and awaits its [P]. *)
Definition followed_step (s : watch) (ev : event) : watch :=
  match s with
  | Waiting => if Q ev then Seen else Waiting
  | Seen => if P ev then (if Q ev then Seen else Waiting) else Broken
  | Broken => Broken
  end.

End TraceProperties.

Definition not_broken (s : watch) : bool :=
  match s with Broken => false | _ => true end.

Definition settled (s : watch) : bool :=
  match s with Waiting => true | _ => false end.

(* ================================================================== *)
(** ** A program logic over monitors *)

Section Logic.

Context {S : Type}.
Variable admitted : world -> Prop.
Variable step : S -> event -> S.

(** The state of the monitor after a history. *)
Definition observe (s0 : S) (h : history) : S := fold_left step h s0.

(** An outcome some admitted world gives to the call. *)
Definition possible {A} (c : call A) (r : outcome A) : Prop :=
  exists w h, admitted w /\ w h A c = r.

(** Weakest precondition: from a history that leaves the monitor in
    [s], in every admitted world, the run of [m] ends with an outcome
    and a monitor state that satisfy [post]. *)
Definition wp {A} (m : M A) (post : outcome A -> S -> Prop) (s : S) : Prop :=
  forall w h s0, admitted w -> observe s0 h = s ->
    post (snd (m w h)) (observe s0 (fst (m w h))).

End Logic.

(** [m] only appends events, all of them satisfying [allowed]. *)
Definition emits {A} (allowed : event -> Prop) (m : M A) : Prop :=
  forall w h, exists d, fst (m w h) = h ++ d /\ Forall allowed d.

Definition any_world (w : world) : Prop := True.

(* ================================================================== *)
(** ** Records of the region matrix *)

Inductive region := Background | MenuBar | AppIcon | Dock.

(** What a probe reports: the check passed, the check failed, or the
    probe was skipped with a warning. *)
Inductive record_kind := Pass | Fail | Skipped.

Definition same_text (l1 l2 : line) : bool :=
  match l1, l2 with
  | Text a, Text b => String.eqb a b
  | _, _ => false
  end.

Definition probe_record (l : line) : option (region * record_kind) :=
  if same_text l ContextMenu.bg_success then Some (Background, Pass)
  else if same_text l ContextMenu.bg_failure then Some (Background, Fail)
  else if same_text l ContextMenu.menubar_success then Some (MenuBar, Pass)
  else if same_text l ContextMenu.menubar_success_exn then Some (MenuBar, Pass)
  else if same_text l ContextMenu.menubar_failure then Some (MenuBar, Fail)
  else if same_text l ContextMenu.icon_success then Some (AppIcon, Pass)
  else if same_text l ContextMenu.icon_success_exn then Some (AppIcon, Pass)
  else if same_text l ContextMenu.icon_failure then Some (AppIcon, Fail)
  else if same_text l ContextMenu.icon_warning then Some (AppIcon, Skipped)
  else if same_text l ContextMenu.dock_success then Some (Dock, Pass)
  else if same_text l ContextMenu.dock_success_exn then Some (Dock, Pass)
  else if same_text l ContextMenu.dock_failure then Some (Dock, Fail)
  else if same_text l ContextMenu.dock_warning then Some (Dock, Skipped)
  else None.

(** The probe records of a trace, in order. *)
Fixpoint records (tr : list event) : list (region * record_kind) :=
  match tr with
  | [] => []
  | Printed l :: rest =>
      match probe_record l with
      | Some r => r :: records rest
      | None => records rest
      end
  | Called _ _ :: rest => records rest
  end.

Definition record_step (s : list (region * record_kind)) (ev : event)
    : list (region * record_kind) :=
  match ev with
  | Printed l =>
      match probe_record l with
      | Some r => s ++ [r]
      | None => s
      end
  | Called _ _ => s
  end.






(* ================================================================== *)
(** ** Concrete drivers *)

Definition box_at (x y : Z) : BoundingBox :=
  mkBox (of_Z x) (of_Z y) (of_Z 800) (of_Z 600).

(** Every call returns: the menu is never visible, every locator matches
    one element, the window has the given box. *)
Definition quiet (box : option BoundingBox) : world :=
  fun _ A c =>
    match c in call T return outcome T with
    | IsVisible _ => Returned false
    | Count _ => Returned 1%nat
    | GetBoundingBox _ => Returned box
    | _ => Returned tt
    end.

(** As [quiet (Some (box_at 240 100))], but the calls selected by
    [fails] raise [e]. *)
Definition failing (fails : forall A, call A -> bool) (e : exn) : world :=
  fun h A c =>
    if fails A c then Raised e else quiet (Some (box_at 240 100)) h A c.

Definition goes_to (url : string) : forall A, call A -> bool :=
  fun A c => match c with Goto u _ => String.eqb u url | _ => false end.

Definition queries_visibility : forall A, call A -> bool :=
  fun A c => match c with IsVisible _ => true | _ => false end.



(** The server does not answer. *)
Definition connection_refused : exn :=
  PlaywrightError "net::ERR_CONNECTION_REFUSED".

(** As [quiet], but no element matches the app-icon locator. *)
Definition no_app_icon : world :=
  fun h A c =>
    match c in call T return outcome T -> outcome T with
    | Count (First (Css ".flex-1.grid button")) => fun _ => Returned 0%nat
    | _ => fun r => r
    end (quiet None h A c).

(* ================================================================== *)
(** ** Further trace properties *)

Section MoreTraceProperties.

Variables P Q : event -> bool.

(** Every [Q] event has a later [P] event. *)
Fixpoint eventually_followed (tr : list event) : bool :=
  match tr with
  | [] => true
  | ev :: rest => (if Q ev then existsb P rest else true) && eventually_followed rest
  end.

(** [Seen]: some [Q] event still awaits a [P] event. *)
Definition eventually_followed_step (s : watch) (ev : event) : watch :=
  match s with
  | Waiting => if Q ev then Seen else Waiting
  | Seen => if P ev then (if Q ev then Seen else Waiting) else Seen
  | Broken => Broken
  end.

(** Every [Q] event comes right after a [P] event; [prev] tells whether
    the event before the list was a [P] event. *)
Fixpoint led_by_from (prev : bool) (tr : list event) : bool :=
  match tr with
  | [] => true
  | ev :: rest => (if Q ev then prev else true) && led_by_from (P ev) rest
  end.

Definition led_by (tr : list event) : bool := led_by_from false tr.

(** [Seen]: the last event was a [P] event. *)
Definition led_by_step (s : watch) (ev : event) : watch :=
  match s with
  | Waiting => if Q ev then Broken else if P ev then Seen else Waiting
  | Seen => if P ev then Seen else Waiting
  | Broken => Broken
  end.

End MoreTraceProperties.

Fixpoint locator_eqb (a b : locator) : bool :=
  match a, b with
  | Css s, Css t => String.eqb s t
  | ByText s, ByText t => String.eqb s t
  | ByRole r n, ByRole r' n' => String.eqb r r' && String.eqb n n'
  | First l, First l' => locator_eqb l l'
  | Nth n l, Nth n' l' => Nat.eqb n n' && locator_eqb l l'
  | FilterHasText l s, FilterHasText l' t => locator_eqb l l' && String.eqb s t
  | _, _ => false
  end.

Definition is_start (ev : event) : bool :=
  match ev with
  | Called c _ => match c with PlaywrightStart => true | _ => false end
  | Printed _ => false
  end.

Definition is_stop (ev : event) : bool :=
  match ev with
  | Called c _ => match c with PlaywrightStop => true | _ => false end
  | Printed _ => false
  end.

Definition anything (ev : event) : bool := true.

Definition is_new_page (ev : event) : bool :=
  match ev with
  | Called c _ => match c with NewPage _ => true | _ => false end
  | Printed _ => false
  end.

(** A gesture of the mouse or a click on a locator. *)
Definition is_pointer (ev : event) : bool :=
  match ev with
  | Called c _ =>
      match c with
      | MouseMove _ _ | MouseDown _ | MouseUp _ | MouseClick _ _
      | Click _ _ => true
      | _ => false
      end
  | Printed _ => false
  end.

Definition is_click_on (l : locator) (b : mouse_button) (ev : event) : bool :=
  match ev with
  | Called c _ =>
      match c with
      | Click l' b' =>
          locator_eqb l l'
          && match b, b' with
             | LeftButton, LeftButton | RightButton, RightButton => true
             | _, _ => false
             end
      | _ => false
      end
  | Printed _ => false
  end.

Definition is_box_query (ev : event) : bool :=
  match ev with
  | Called c _ => match c with GetBoundingBox _ => true | _ => false end
  | Printed _ => false
  end.

(** [wait_for_selector(sel)] returned ([ok]) or raised. *)
Definition waited_for (sel : string) (ok : bool) (ev : event) : bool :=
  match ev with
  | Called c r =>
      match c with
      | WaitForSelector s _ =>
          String.eqb s sel
          && match r with Returned _ => ok | Raised _ => negb ok end
      | _ => false
      end
  | Printed _ => false
  end.

(** [expect(l).to_be_visible()] returned. *)
Definition saw_visible (l : locator) (ev : event) : bool :=
  match ev with
  | Called c (Returned _) =>
      match c with ExpectVisible l' _ => locator_eqb l l' | _ => false end
  | _ => false
  end.

(** [l.count()] returned a number that is positive, or zero. *)
Definition counted (positive : bool) (l : locator) (ev : event) : bool :=
  match ev with
  | Called c r =>
      match c in call T return outcome T -> bool with
      | Count l' =>
          fun r => match r with
                   | Returned n =>
                       locator_eqb l l' && Bool.eqb (0 <? n)%nat positive
                   | Raised _ => false
                   end
      | _ => fun _ => false
      end r
  | Printed _ => false
  end.

(** [is_visible()] returned [b]. *)
Definition visibility_is (b : bool) (ev : event) : bool :=
  match ev with
  | Called c r =>
      match c in call T return outcome T -> bool with
      | IsVisible _ =>
          fun r => match r with
                   | Returned v => Bool.eqb v b
                   | Raised _ => false
                   end
      | _ => fun _ => false
      end r
  | Printed _ => false
  end.

Definition not_start (ev : event) : bool := negb (is_start ev).

Definition not_stop (ev : event) : bool := negb (is_stop ev).

(** [l.count()], whatever its outcome. *)
Definition is_count_of (l : locator) (ev : event) : bool :=
  match ev with
  | Called c _ => match c with Count l' => locator_eqb l l' | _ => false end
  | Printed _ => false
  end.

(** The right click that begins the background probe has been made. *)
Definition right_button_released (ev : event) : bool :=
  match ev with
  | Called c (Returned _) =>
      match c with MouseUp RightButton => true | _ => false end
  | _ => false
  end.

(** The last line of the [try] body of the activity script. *)
Definition captured : event -> bool := printed "Screenshot captured".

(** The regions of the records are in the order of the script, each at
    most once. *)
Definition region_rank (r : region) : nat :=
  match r with
  | Background => 0
  | MenuBar => 1
  | AppIcon => 2
  | Dock => 3
  end.

Fixpoint in_probe_order (rs : list (region * record_kind)) : bool :=
  match rs with
  | [] => true
  | (r, _) :: rest =>
      match rest with
      | [] => true
      | (r', _) :: _ => (region_rank r <? region_rank r')%nat
      end
      && in_probe_order rest
  end.

(** The lines of the negative probes, by kind. *)
Definition negative_failure : event -> bool :=
  printed_any [ContextMenu.menubar_failure; ContextMenu.icon_failure;
               ContextMenu.dock_failure].

Definition negative_success : event -> bool :=
  printed_any [ContextMenu.menubar_success; ContextMenu.icon_success;
               ContextMenu.dock_success].

(** The outcome of a guarded block whose [try] body ended with [r],
    whose error screenshot ended with [shot] and whose [browser.close()]
    ended with [closed]. *)
Definition exit_outcome (r shot closed : outcome unit) : outcome unit :=
  match closed with
  | Raised e => Raised e
  | Returned _ =>
      match r with
      | Returned a => Returned a
      | Raised e => if is_Exception e then shot else Raised e
      end
  end.

(** The calls of the scripts outside their [try] bodies: the statements
    before [try], the handler's screenshot, [browser.close()] and the
    exit of [with sync_playwright()]. *)
Definition is_scaffold {A} (c : call A) : bool :=
  match c with
  | PlaywrightStart | PlaywrightStop | Launch _ | NewContext _ | NewPage _
  | AddInitScript _ | BrowserClose => true
  | Screenshot p => String.eqb p "verification/error.png"
  | Goto u _ => String.eqb u "http://localhost:5173/"
  | Evaluate s => String.eqb s ContextMenu.seed_script
  | _ => false
  end.

(** Worlds in which the calls outside the [try] bodies return and every
    exception raised is an [Exception]. *)
Definition soft_failures (w : world) : Prop :=
  (forall h A (c : call A), is_scaffold c = true ->
     exists a, w h A c = Returned a)
  /\ (forall h A (c : call A) e, w h A c = Raised e -> is_Exception e = true).

(** The monitor that observes nothing. *)
Definition blind (s : unit) (ev : event) : unit := s.

(** Every check of a script fails: each wait, assertion and query on the
    page raises a timeout. *)
Definition page_is_blank : forall A, call A -> bool :=
  fun A c =>
    match c with
    | WaitForSelector _ _ | ExpectVisible _ _ | IsVisible _ | Count _
    | GetBoundingBox _ | Click _ _ => true
    | _ => false
    end.

Definition timed_out : exn := TimeoutError "Timeout 30000ms exceeded.".


(** [is_visible()], whatever its outcome. *)
Definition is_visibility_query (ev : event) : bool :=
  match ev with
  | Called c _ => match c with IsVisible _ => true | _ => false end
  | Printed _ => false
  end.

(** The binary64 number -2^-60. *)
Definition tiny_negative : float := S754_finite true 4503599627370496 (-112).

(** As [quiet], but the context menu is visible at every query. *)
Definition menu_everywhere : world :=
  fun h A c =>
    match c in call T return outcome T -> outcome T with
    | IsVisible _ => fun _ => Returned true
    | _ => fun r => r
    end (quiet None h A c).

(** The three properties of a driver session. *)
Definition session_protocol (tr : list event) : Prop :=
  preceded (completed is_start) not_start tr = true
  /\ eventually_followed is_stop (completed is_start) tr = true
  /\ never_after anything is_stop tr = true.

(* ================================================================== *)
(** ** Rules of the program logic *)

Section EmitsRules.

Context {A B : Type}.
Variable allowed : event -> Prop.

Lemma emits_ret (a : A) : emits allowed (ret a).
Proof. intros w h. exists []. simpl. rewrite app_nil_r. auto. Qed.

Lemma emits_raise (e : exn) : emits allowed (raise (A := A) e).
Proof. intros w h. exists []. simpl. rewrite app_nil_r. auto. Qed.

Lemma emits_perform (c : call A) :
  (forall r, allowed (Called c r)) -> emits allowed (perform c).
Proof. intros H w h. eexists. split; [reflexivity|]. auto. Qed.

Lemma emits_print l : allowed (Printed l) -> emits allowed (print l).
Proof. intros H w h. eexists. split; [reflexivity|]. auto. Qed.

Lemma emits_bind (m : M A) (k : A -> M B) :
  emits allowed m -> (forall a, emits allowed (k a)) ->
  emits allowed (bind m k).
Proof.
  intros Hm Hk w h. unfold bind.
  destruct (Hm w h) as [d [E F]].
  destruct (m w h) as [h' [a|e]]; simpl in E; subst h'.
  - destruct (Hk a w (h ++ d)) as [d' [E' F']].
    exists (d ++ d'). rewrite E', app_assoc. split; [reflexivity|].
    apply Forall_app; auto.
  - exists d. auto.
Qed.

Lemma emits_try_except (body : M A) catches handler :
  emits allowed body -> (forall e, emits allowed (handler e)) ->
  emits allowed (try_except body catches handler).
Proof.
  intros Hm Hk w h. unfold try_except.
  destruct (Hm w h) as [d [E F]].
  destruct (body w h) as [h' [a|e]]; simpl in E; subst h'.
  - exists d. auto.
  - destruct (catches e); [|exists d; auto].
    destruct (Hk e w (h ++ d)) as [d' [E' F']].
    exists (d ++ d'). rewrite E', app_assoc. split; [reflexivity|].
    apply Forall_app; auto.
Qed.

Lemma emits_try_finally (body : M A) final :
  emits allowed body -> emits allowed final ->
  emits allowed (try_finally body final).
Proof.
  intros Hm Hk w h. unfold try_finally.
  destruct (Hm w h) as [d [E F]].
  destruct (body w h) as [h' r]; simpl in E; subst h'.
  destruct (Hk w (h ++ d)) as [d' [E' F']].
  exists (d ++ d').
  destruct (final w (h ++ d)) as [h'' [a|e]]; simpl in *; subst h'';
    rewrite app_assoc; (split; [reflexivity|]); apply Forall_app; auto.
Qed.

End EmitsRules.

Section WpRules.

Context {S : Type}.
Variable admitted : world -> Prop.
Variable step : S -> event -> S.

Lemma observe_snoc s0 h ev :
  observe step s0 (h ++ [ev]) = step (observe step s0 h) ev.
Proof. unfold observe. rewrite fold_left_app. reflexivity. Qed.

Lemma observe_app s0 h d :
  observe step s0 (h ++ d) = observe step (observe step s0 h) d.
Proof. unfold observe. apply fold_left_app. Qed.

Lemma observe_stays s d :
  Forall (fun ev => step s ev = s) d -> observe step s d = s.
Proof.
  induction 1 as [|ev d H _ IH]; simpl; [reflexivity|]. rewrite H. exact IH.
Qed.

Lemma wp_ret {A} (a : A) (post : outcome A -> S -> Prop) s :
  post (Returned a) s -> wp admitted step (ret a) post s.
Proof. intros H w h s0 _ E. simpl. rewrite E. exact H. Qed.

Lemma wp_raise {A} (e : exn) (post : outcome A -> S -> Prop) s :
  post (Raised e) s -> wp admitted step (raise e) post s.
Proof. intros H w h s0 _ E. simpl. rewrite E. exact H. Qed.

Lemma wp_perform {A} (c : call A) (post : outcome A -> S -> Prop) s :
  (forall r, possible admitted c r -> post r (step s (Called c r))) ->
  wp admitted step (perform c) post s.
Proof.
  intros H w h s0 Hw E. simpl. rewrite observe_snoc, E. apply H.
  exists w, h. auto.
Qed.

Lemma wp_print l (post : outcome unit -> S -> Prop) s :
  post (Returned tt) (step s (Printed l)) -> wp admitted step (print l) post s.
Proof. intros H w h s0 _ E. simpl. rewrite observe_snoc, E. apply H. Qed.

Lemma wp_bind {A B} (m : M A) (k : A -> M B)
    (post : outcome B -> S -> Prop) s :
  wp admitted step m (fun r s' => match r with
                    | Returned a => wp admitted step (k a) post s'
                    | Raised e => post (Raised e) s'
                    end) s ->
  wp admitted step (bind m k) post s.
Proof.
  intros H w h s0 Hw E. specialize (H w h s0 Hw E). unfold bind.
  destruct (m w h) as [h' [a|e]]; simpl in *.
  - apply H; [exact Hw | reflexivity].
  - exact H.
Qed.

Lemma wp_try_except {A} (body : M A) (catches : exn -> bool)
    (handler : exn -> M A) (post : outcome A -> S -> Prop) s :
  wp admitted step body (fun r s' => match r with
                       | Returned a => post (Returned a) s'
                       | Raised e =>
                           if catches e then wp admitted step (handler e) post s'
                           else post (Raised e) s'
                       end) s ->
  wp admitted step (try_except body catches handler) post s.
Proof.
  intros H w h s0 Hw E. specialize (H w h s0 Hw E). unfold try_except.
  destruct (body w h) as [h' [a|e]]; simpl in *.
  - exact H.
  - destruct (catches e); [apply H; [exact Hw | reflexivity] | exact H].
Qed.

Lemma wp_try_finally {A} (body : M A) final
    (post : outcome A -> S -> Prop) s :
  wp admitted step body (fun r s' =>
     wp admitted step final (fun rf s'' => match rf with
                             | Returned _ => post r s''
                             | Raised e => post (Raised e) s''
                             end) s') s ->
  wp admitted step (try_finally body final) post s.
Proof.
  intros H w h s0 Hw E. specialize (H w h s0 Hw E). unfold try_finally.
  destruct (body w h) as [h' r]; simpl in *.
  specialize (H w h' s0 Hw eq_refl).
  destruct (final w h') as [h'' [a|e]]; simpl in *; exact H.
Qed.

(** A program whose events all leave the monitor in [s]. *)
Lemma wp_stays {A} (m : M A) (post : outcome A -> S -> Prop) s :
  emits (fun ev => step s ev = s) m ->
  (forall r, post r s) ->
  wp admitted step m post s.
Proof.
  intros He Hp w h s0 _ E. destruct (He w h) as [d [Ed Fd]].
  rewrite Ed, observe_app, E, observe_stays by exact Fd. apply Hp.
Qed.

Lemma wp_run {A} (m : M A) (post : outcome A -> S -> Prop) s0 w :
  admitted w ->
  wp admitted step m post s0 -> post (result m w) (observe step s0 (trace m w)).
Proof. intros Hw H. apply (H w [] s0 Hw). reflexivity. Qed.

End WpRules.

(** The monitors compute the trace properties. *)
Lemma never_after_observe P Q tr :
  never_after P Q tr = not_broken (observe (never_after_step P Q) Waiting tr).
Proof.
  unfold observe.
  assert (HB : forall l, fold_left (never_after_step P Q) l Broken = Broken).
  { induction l; simpl; auto. }
  assert (HS : forall l, not_broken (fold_left (never_after_step P Q) l Seen)
                         = forallb (fun e => negb (P e)) l).
  { induction l as [|e l IH]; simpl; [reflexivity|].
    destruct (P e); simpl; [rewrite HB; reflexivity | exact IH]. }
  induction tr as [|ev tr IH]; simpl; [reflexivity|].
  destruct (Q ev); [symmetry; apply HS | exact IH].
Qed.

Lemma preceded_observe P Q tr :
  preceded P Q tr = not_broken (observe (preceded_step P Q) Waiting tr).
Proof.
  unfold observe.
  assert (HB : forall l, fold_left (preceded_step P Q) l Broken = Broken).
  { induction l; simpl; auto. }
  assert (HS : forall l, fold_left (preceded_step P Q) l Seen = Seen).
  { induction l; simpl; auto. }
  induction tr as [|ev tr IH]; simpl; [reflexivity|].
  destruct (Q ev); [rewrite HB; reflexivity|].
  destruct (P ev); [rewrite HS; reflexivity | exact IH].
Qed.

Lemma followed_observe P Q tr :
  followed P Q tr = settled (observe (followed_step P Q) Waiting tr).
Proof.
  unfold observe.
  assert (HB : forall l, fold_left (followed_step P Q) l Broken = Broken).
  { induction l; simpl; auto. }
  assert (HS : forall l,
    settled (fold_left (followed_step P Q) l Seen)
    = match l with nxt :: _ => P nxt | [] => false end && followed P Q l
    /\ settled (fold_left (followed_step P Q) l Waiting) = followed P Q l).
  { induction l as [|e l [IH1 IH2]]; simpl; [auto|].
    split.
    - destruct (P e); simpl; [|rewrite HB; reflexivity].
      destruct (Q e); simpl; [exact IH1 | exact IH2].
    - destruct (Q e); simpl; [exact IH1 | exact IH2]. }
  symmetry. apply HS.
Qed.

Lemma records_observe s tr : observe record_step s tr = s ++ records tr.
Proof.
  unfold observe. revert s.
  induction tr as [|ev tr IH]; intros s; simpl.
  - now rewrite app_nil_r.
  - destruct ev as [A c r|l]; simpl; [apply IH|].
    destruct (probe_record l); [|apply IH].
    rewrite IH, <- app_assoc. reflexivity.
Qed.

Lemma eventually_observe P Q tr :
  eventually_followed P Q tr = settled (observe (eventually_followed_step P Q) Waiting tr).
Proof.
  unfold observe.
  assert (HS : forall l,
    settled (fold_left (eventually_followed_step P Q) l Seen)
    = existsb P l && eventually_followed P Q l
    /\ settled (fold_left (eventually_followed_step P Q) l Waiting) = eventually_followed P Q l).
  { induction l as [|e l [IH1 IH2]]; simpl; [auto|].
    split.
    - destruct (P e), (Q e); simpl; rewrite ?IH1, ?IH2;
        destruct (existsb P l), (eventually_followed P Q l); reflexivity.
    - destruct (Q e); simpl; rewrite ?IH1, ?IH2; reflexivity. }
  symmetry. apply HS.
Qed.

Lemma led_by_observe P Q tr :
  led_by P Q tr = not_broken (observe (led_by_step P Q) Waiting tr).
Proof.
  unfold observe, led_by.
  assert (HB : forall l, fold_left (led_by_step P Q) l Broken = Broken).
  { induction l; simpl; auto. }
  assert (HS : forall l,
    not_broken (fold_left (led_by_step P Q) l Seen) = led_by_from P Q true l
    /\ not_broken (fold_left (led_by_step P Q) l Waiting)
       = led_by_from P Q false l).
  { induction l as [|e l [IH1 IH2]]; simpl; [auto|].
    split.
    - destruct (Q e), (P e); simpl; assumption.
    - destruct (Q e); simpl; [rewrite HB; reflexivity|].
      destruct (P e); simpl; assumption. }
  symmetry. apply HS.
Qed.

(** What [emits] says of a whole run. *)
Lemma emits_trace {A} (allowed : event -> bool) (m : M A) w :
  emits (fun ev => allowed ev = true) m -> forallb allowed (trace m w) = true.
Proof.
  intros H. destruct (H w []) as [d [E F]]. unfold trace. rewrite E. simpl.
  apply forallb_forall. apply Forall_forall. exact F.
Qed.

(* ================================================================== *)
(** ** Symbolic execution *)

Create HintDb scripts.

#[local] Hint Unfold with_sync_playwright
  WindowCenter.main WindowCenter.guarded
  WindowCenter.verify_window_centering WindowCenter.check_coordinates
  true_divide
  Activity.verify_activity_monitor Activity.guarded Activity.checks
  ContextMenu.verify_context_menu ContextMenu.guarded ContextMenu.checks
  ContextMenu.probe_background ContextMenu.probe_menubar
  ContextMenu.probe_app_icon ContextMenu.probe_dock
  ContextMenu.expect_no_menu : scripts.

(** [emits allowed m], for a decidable [allowed], by the shape of [m]. *)
Ltac emits_tac :=
  autounfold with scripts;
  repeat first
    [ apply emits_bind | apply emits_try_except | apply emits_try_finally
    | apply emits_ret
    | apply emits_raise
    | apply emits_print; vm_compute; reflexivity
    | apply emits_perform; intros [?|?]; vm_compute; reflexivity
    | match goal with
      | |- forall _, _ => intro
      | |- emits _ (if ?b then _ else _) => destruct b
      | |- emits _ (match ?x with _ => _ end) => destruct x
      end ].

Ltac head_of m :=
  lazymatch m with
  | ?f _ _ _ _ => f
  | ?f _ _ _ => f
  | ?f _ _ => f
  | ?f _ => f
  | _ => m
  end.

Ltac wp_state :=
  lazymatch goal with
  | |- wp ?adm ?step ?m ?post ?s =>
      let s' := eval vm_compute in s in change (wp adm step m post s')
  end.

(** An outcome that no admitted world gives. *)
Ltac impossible H :=
  let w := fresh "w" in
  let h := fresh "h" in
  let Hw := fresh "Hw" in
  let E := fresh "E" in
  let a := fresh "a" in
  let Ea := fresh "Ea" in
  destruct H as [w [h [Hw E]]];
  lazymatch type of E with
  | _ _ ?T ?c = _ => destruct (Hw h T c eq_refl) as [a Ea]
  end;
  congruence.

(** One step of the weakest-precondition computation.  A part of the
    script whose events all leave the monitor where it is is skipped by
    [wp_stays]. *)
Ltac wp_step :=
  cbv beta iota;
  lazymatch goal with
  | |- wp _ _ (bind _ _) _ _ => apply wp_bind
  | |- wp _ _ (try_except _ _ _) _ _ => apply wp_try_except
  | |- wp _ _ (try_finally _ _) _ _ => apply wp_try_finally
  | |- wp _ _ (perform _) _ _ =>
      apply wp_perform;
      let r := fresh "r" in
      let H := fresh "H" in
      intros [r|r] H;
      [ clear H | first [ exfalso; solve [impossible H] | clear H ] ];
      try lazymatch type of r with
          | bool => destruct r
          | nat => destruct r
          | option _ => destruct r
          end;
      cbv beta iota; try wp_state
  | |- wp _ _ (print _) _ _ => apply wp_print; cbv beta iota; try wp_state
  | |- wp _ _ (ret _) _ _ => apply wp_ret
  | |- wp _ _ (raise _) _ _ => apply wp_raise
  | |- wp _ _ (if ?b then _ else _) _ _ =>
      let b' := eval compute in b in change b with b'; cbv iota
  | |- wp _ _ (match ?x with _ => _ end) _ _ => destruct x
  | |- wp _ _ ?m _ _ =>
      first [ apply wp_stays; [solve [emits_tac] | intros [[]|?]]
            | let f := head_of m in unfold f ]
  | |- if ?c then _ else _ =>
      let c' := eval compute in c in
      lazymatch c' with
      | true => change c with true; cbv iota
      | false => change c with false; cbv iota
      | _ => destruct c eqn:?
      end
  end.

Ltac wp_auto := repeat wp_step; try reflexivity.

(* ================================================================== *)
(** ** Binary64 comparison and subtraction *)

Section FloatFacts.

Local Ltac order_cases :=
  repeat match goal with
         | H : context [Pos.compare_cont Eq ?a ?b] |- _ =>
             change (Pos.compare_cont Eq a b) with (Pos.compare a b) in H
         | |- context [Pos.compare_cont Eq ?a ?b] =>
             change (Pos.compare_cont Eq a b) with (Pos.compare a b)
         end;
  repeat match goal with
         | H : context [Z.compare ?a ?b] |- _ =>
             destruct (Z.compare_spec a b); simpl in H
         | |- context [Z.compare ?a ?b] =>
             destruct (Z.compare_spec a b); simpl
         | H : context [Pos.compare ?a ?b] |- _ =>
             destruct (Pos.compare_spec a b); simpl in H
         | |- context [Pos.compare ?a ?b] =>
             destruct (Pos.compare_spec a b); simpl
         end;
  try discriminate; try reflexivity; try lia.

(** [<] on binary64 values is transitive. *)
Lemma ltb_trans x y z : ltb x y = true -> ltb y z = true -> ltb x z = true.
Proof.
  unfold ltb, SFltb.
  destruct x as [sx|sx| |sx mx ex], y as [sy|sy| |sy my ey],
           z as [sz|sz| |sz mz ez]; simpl;
    try discriminate; try reflexivity;
    repeat match goal with s : bool |- _ => destruct s end; simpl;
    try discriminate; try reflexivity;
    intros H1 H2; order_cases.
Qed.

(** Values that [==] finds equal, one of them finite, differ by a zero. *)
Lemma sub_eq_zero x y :
  eqb x y = true -> is_finite y = true -> exists s, sub x y = S754_zero s.
Proof.
  unfold eqb, SFeqb, sub.
  destruct x as [sx|sx| |sx mx ex], y as [sy|sy| |sy my ey]; simpl;
    try discriminate;
    repeat match goal with s : bool |- _ => destruct s end; simpl;
    try discriminate; intros H _; try (eexists; reflexivity).
  - order_cases. subst. exists false.
    rewrite Z.min_id. unfold shl_align. rewrite Z.sub_diag. simpl.
    rewrite Z.pos_sub_diag. reflexivity.
  - order_cases. subst. exists false.
    rewrite Z.min_id. unfold shl_align. rewrite Z.sub_diag. simpl.
    rewrite Z.pos_sub_diag. reflexivity.
Qed.

Lemma abs_zero s : abs (S754_zero s) = zero.
Proof. reflexivity. Qed.

Lemma two_power (k : Z) :
  0 <= k -> (Qpower (2 # 1) k == inject_Z (2 ^ k))%Q.
Proof. intros H. rewrite Zpower_Qpower by exact H. reflexivity. Qed.

(** The check on integers decides the value of the number. *)
Lemma is_exactly_represents x num den :
  is_exactly x num den = true -> represents x (num # den).
Proof.
  unfold is_exactly, represents. intros H.
  apply andb_true_iff in H. destruct H as [Hv H]. split; [exact Hv|].
  destruct x as [s|s| |s m e]; try discriminate.
  - apply Z.eqb_eq in H. subst num. eexists. split; reflexivity.
  - eexists. split; [reflexivity|].
    destruct (Z.leb_spec e 0) as [He|He]; apply Z.eqb_eq in H.
    + replace e with (- (- e)) by lia.
      rewrite Qpower_opp, two_power by lia.
      assert (Hp : 0 < 2 ^ (- e)) by (apply Z.pow_pos_nonneg; lia).
      set (M := cond_Zopp s (Z.pos m)) in *.
      set (K := 2 ^ (- e)) in *.
      destruct K as [|K|K]; try lia.
      unfold Qeq, Qmult, Qinv, inject_Z; simpl. lia.
    + rewrite two_power by lia.
      set (M := cond_Zopp s (Z.pos m)) in *.
      set (K := 2 ^ e) in *.
      unfold Qeq, Qmult, inject_Z; simpl. lia.
Qed.

Lemma is_exactly_finite x num den :
  is_exactly x num den = true -> is_finite x = true.
Proof.
  unfold is_exactly. intros H. apply andb_true_iff in H. destruct H as [_ H].
  destruct x; try discriminate; reflexivity.
Qed.

Lemma all_from_sound f n : forall lo acc,
  all_from f lo n acc = true ->
  acc = true /\ forall k, lo <= k < lo + Z.of_nat n -> f k = true.
Proof.
  induction n as [|n IH]; intros lo acc H; simpl in H.
  - split; [exact H|]. intros k Hk. lia.
  - apply IH in H. destruct H as [Ha H].
    apply andb_true_iff in Ha. destruct Ha as [Ha Hf].
    split; [exact Ha|]. intros k Hk.
    destruct (Z.eq_dec k lo) as [->|Hne]; [exact Hf|].
    apply H. lia.
Qed.

(** Halving is exact on the integers a viewport below 2^17 pixels gives
    to lines 47 and 48: the quotient is the binary64 number n/2. *)
Lemma half_is_exact n :
  -800 <= n < 2 ^ 17 -> is_exactly (int_true_div n 2) n 2 = true.
Proof.
  intros Hn.
  assert (H : all_from (fun n => is_exactly (int_true_div n 2) n 2)
                (-800) (Z.to_nat (2 ^ 17 + 800)) true = true)
    by (vm_compute; reflexivity).
  apply all_from_sound in H. destruct H as [_ H]. apply H.
  rewrite Z2Nat.id by lia. lia.
Qed.

End FloatFacts.

(* ================================================================== *)
(** ** Running a script step by step *)

Lemma run_bind {A B} (m : M A) (k : A -> M B) w h :
  bind m k w h = match m w h with
                 | (h', Returned a) => k a w h'
                 | (h', Raised e) => (h', Raised e)
                 end.
Proof. reflexivity. Qed.

Lemma run_perform {A} (c : call A) w h :
  perform c w h = (h ++ [Called c (w h A c)], w h A c).
Proof. reflexivity. Qed.

Lemma run_print l w h : print l w h = (h ++ [Printed l], Returned tt).
Proof. reflexivity. Qed.

Lemma run_ret {A} (a : A) w h : ret a w h = (h, Returned a).
Proof. reflexivity. Qed.

Lemma run_raise {A} (e : exn) w h : raise (A := A) e w h = (h, Raised e).
Proof. reflexivity. Qed.

Lemma run_if {A} (b : bool) (m1 m2 : M A) w h :
  (if b then m1 else m2) w h = if b then m1 w h else m2 w h.
Proof. destruct b; reflexivity. Qed.

(** Runs the next statement of the script under the cursor; a driver
    call splits the goal by its outcome in [w]. *)
Ltac run_step w :=
  first
    [ rewrite run_bind
    | rewrite run_print
    | rewrite run_ret
    | rewrite run_raise
    | rewrite run_if
    | rewrite run_perform;
      match goal with
      | |- context [w ?h ?A ?c] =>
          let r := fresh "r" in
          destruct (w h A c) as [r|r];
          try match type of r with
              | unit => destruct r
              | option _ => destruct r
              end
      end ];
  cbv beta iota; cbn [app].

(* ================================================================== *)
(** ** The window-centering check *)

Section WindowCentering.

Import WindowCenter.

#[local] Arguments of_Z : simpl never.
#[local] Arguments int_true_div : simpl never.
#[local] Arguments sub : simpl never.
#[local] Arguments abs : simpl never.
#[local] Arguments ltb : simpl never.

(** C1, as the code has it.  For a viewport below 2^17 pixels in each
    dimension the check computes the expected corner as exactly
    ((width - 800) / 2, (height - 600) / 2) and prints it; for the box
    the browser reports it prints the success line if and only if
    abs(x - expected x) < 5 and abs(y - expected y) < 5 both hold as
    binary64 arithmetic evaluates them (the difference is rounded to
    nearest, then compared strictly), and the failure line otherwise. *)
Theorem centering_passes_iff_within_tolerance :
  forall (w : world) (page : Page) (viewport : ViewportSize) (box : BoundingBox),
    viewport_size page = Some viewport ->
    0 <= vp_width viewport < 2 ^ 17 ->
    0 <= vp_height viewport < 2 ^ 17 ->
    observed_box (trace (verify_window_centering page) w) = Some box ->
    let tr := trace (verify_window_centering page) w in
    exists ex ey : float,
      represents ex ((vp_width viewport - 800) # 2)
      /\ represents ey ((vp_height viewport - 600) # 2)
      /\ In (Printed (ExpectedLine ex ey)) tr
      /\ (passes tr = true <->
          ltb (abs (sub (box_x box) ex)) (of_Z 5) = true
          /\ ltb (abs (sub (box_y box) ey)) (of_Z 5) = true)
      /\ fails tr = negb (passes tr).
Proof.
  intros w [vs] viewport box Hvp Hw Hh. simpl in Hvp. subst vs.
  assert (Ex : is_exactly (expected_x viewport) (vp_width viewport - 800) 2
               = true) by (apply half_is_exact; lia).
  assert (Ey : is_exactly (expected_y viewport) (vp_height viewport - 600) 2
               = true) by (apply half_is_exact; lia).
  pose proof (is_exactly_finite _ _ _ Ex) as Fx.
  pose proof (is_exactly_finite _ _ _ Ey) as Fy.
  exists (expected_x viewport), (expected_y viewport).
  split; [apply is_exactly_represents, Ex|].
  split; [apply is_exactly_represents, Ey|].
  revert H. unfold trace, verify_window_centering. cbv zeta.
  repeat run_step w; try (simpl; intros Hbox; discriminate Hbox).
  unfold check_coordinates, true_divide. cbn [viewport_size].
  change (Z.eqb 2 0) with false. cbv iota.
  fold (expected_x viewport) (expected_y viewport). rewrite Fx, Fy.
  repeat run_step w.
  fold (is_centered b viewport).
  destruct (is_centered b viewport) eqn:Hc; repeat run_step w;
    intros Hbox; simpl in Hbox; injection Hbox as ->;
    unfold passes, fails; simpl;
    (split; [intuition|]); (split; [|reflexivity]);
    unfold is_centered, boundingBoxWithin in Hc.
  - apply andb_true_iff in Hc. intuition.
  - split; [discriminate|]. intros [H1 H2].
    rewrite H1, H2 in Hc. discriminate.
Qed.

(** The hypotheses of C1 hold in the run that reports a box at
    (242, 98) in the 1280x800 viewport. *)
Lemma centering_passes_iff_within_tolerance_witness :
  viewport_size (mkPage (Some main_viewport)) = Some main_viewport
  /\ 0 <= vp_width main_viewport < 2 ^ 17
  /\ 0 <= vp_height main_viewport < 2 ^ 17
  /\ observed_box
       (trace (verify_window_centering (mkPage (Some main_viewport)))
          (quiet (Some (box_at 242 98)))) = Some (box_at 242 98)
  /\ exists ex ey : float,
       represents ex ((1280 - 800) # 2)
       /\ represents ey ((800 - 600) # 2)
       /\ (passes (trace (verify_window_centering
                            (mkPage (Some main_viewport)))
                     (quiet (Some (box_at 242 98)))) = true <->
           ltb (abs (sub (of_Z 242) ex)) (of_Z 5) = true
           /\ ltb (abs (sub (of_Z 98) ey)) (of_Z 5) = true).
Proof.
  split; [reflexivity|].
  split; [simpl; lia|]. split; [simpl; lia|].
  split; [vm_compute; reflexivity|].
  destruct (centering_passes_iff_within_tolerance
              (quiet (Some (box_at 242 98))) (mkPage (Some main_viewport))
              main_viewport (box_at 242 98))
    as [ex [ey [Hx [Hy [_ [Hiff _]]]]]].
  - reflexivity.
  - simpl; lia.
  - simpl; lia.
  - vm_compute; reflexivity.
  - exists ex, ey. split; [exact Hx|]. split; [exact Hy|]. exact Hiff.
Defined.

(** C1 as stated fails on the exact distances: in the 790x800 viewport
    the expected corner is (-5, 100); a box at (-2^-60, 100) is at a
    distance below 5 on both axes, but the binary64 difference
    -2^-60 + 5 rounds to 5.0 and the check prints the failure line. *)
Lemma rounded_difference_reaches_tolerance :
  let viewport := mkViewport 790 800 in
  let box := mkBox tiny_negative (of_Z 100) (of_Z 800) (of_Z 600) in
  let tr := trace (verify_window_centering (mkPage (Some viewport)))
              (quiet (Some box)) in
  valid_binary prec emax tiny_negative = true
  /\ (exists qx, to_Q tiny_negative = Some qx
                 /\ (Qabs (qx - ((790 - 800) # 2)) < 5 # 1)%Q)
  /\ (exists qy, to_Q (of_Z 100) = Some qy
                 /\ (Qabs (qy - ((800 - 600) # 2)) < 5 # 1)%Q)
  /\ passes tr = false
  /\ fails tr = true.
Proof.
  split; [reflexivity|].
  split; [eexists; split; [reflexivity | vm_compute; reflexivity]|].
  split; [eexists; split; [reflexivity | vm_compute; reflexivity]|].
  split; vm_compute; reflexivity.
Qed.

(** X14.  Beyond the binary64 range line 47 raises: for a viewport
    2^1025 + 800 pixels wide the check ends with OverflowError and prints
    no verdict, while 2^1024 / 2 is still a finite number. *)
Lemma huge_viewport_overflows :
  let viewport := mkViewport (2 ^ 1025 + 800) 800 in
  let tr := trace (verify_window_centering (mkPage (Some viewport)))
              (quiet (Some (box_at 242 98))) in
  result (verify_window_centering (mkPage (Some viewport)))
    (quiet (Some (box_at 242 98)))
  = Raised (OverflowError "integer division result too large for a float")
  /\ is_finite (int_true_div (2 ^ 1024) 2) = true
  /\ passes tr = false
  /\ fails tr = false.
Proof. repeat split; vm_compute; reflexivity. Qed.

(** C7.  With the 1280x800 viewport and the 800x600 window the expected
    corner is (240, 100); a box at (242, 98) passes the check at
    tolerance 5 and a box at (260, 100) fails it, in the comparison and
    in the run of the script. *)
Theorem centering_example_1280x800 :
  expected_x main_viewport = of_Z 240
  /\ expected_y main_viewport = of_Z 100
  /\ is_centered (box_at 242 98) main_viewport = true
  /\ is_centered (box_at 260 100) main_viewport = false
  /\ passes (trace main (quiet (Some (box_at 242 98)))) = true
  /\ fails (trace main (quiet (Some (box_at 242 98)))) = false
  /\ passes (trace main (quiet (Some (box_at 260 100)))) = false
  /\ fails (trace main (quiet (Some (box_at 260 100)))) = true.
Proof. repeat split; vm_compute; reflexivity. Qed.

(** C6, as the code has it.  The comparison is monotone in the
    tolerance, and when the actual corner equals the expected one (finite
    values) it passes at every tolerance greater than zero. *)
Theorem within_tolerance_monotone_and_exact :
  forall (T T' ax ay ex ey : float),
    (boundingBoxWithin T ax ay ex ey = true -> ltb T T' = true ->
     boundingBoxWithin T' ax ay ex ey = true)
    /\ (eqb ax ex = true -> eqb ay ey = true ->
        is_finite ex = true -> is_finite ey = true ->
        ltb zero T = true ->
        boundingBoxWithin T ax ay ex ey = true).
Proof.
  intros T T' ax ay ex ey. unfold boundingBoxWithin. split.
  - intros H HT. apply andb_true_iff in H. destruct H as [Hx Hy].
    apply andb_true_iff. split; eapply ltb_trans; eassumption.
  - intros Hx Hy Fx Fy HT.
    destruct (sub_eq_zero ax ex Hx Fx) as [sx Ex].
    destruct (sub_eq_zero ay ey Hy Fy) as [sy Ey].
    rewrite Ex, Ey, !abs_zero, HT. reflexivity.
Qed.

Lemma within_tolerance_monotone_and_exact_witness :
  (boundingBoxWithin (of_Z 5) (of_Z 242) (of_Z 98) (of_Z 240) (of_Z 100) = true
   /\ ltb (of_Z 5) (of_Z 6) = true
   /\ boundingBoxWithin (of_Z 6) (of_Z 242) (of_Z 98) (of_Z 240) (of_Z 100)
      = true)
  /\ (eqb (of_Z 240) (of_Z 240) = true /\ eqb (of_Z 100) (of_Z 100) = true
      /\ is_finite (of_Z 240) = true /\ is_finite (of_Z 100) = true
      /\ ltb zero (of_Z 5) = true
      /\ boundingBoxWithin (of_Z 5) (of_Z 240) (of_Z 100) (of_Z 240) (of_Z 100)
         = true).
Proof.
  destruct (within_tolerance_monotone_and_exact
              (of_Z 5) (of_Z 6) (of_Z 242) (of_Z 98) (of_Z 240) (of_Z 100))
    as [Hmono _].
  destruct (within_tolerance_monotone_and_exact
              (of_Z 5) (of_Z 5) (of_Z 240) (of_Z 100) (of_Z 240) (of_Z 100))
    as [_ Hexact].
  split.
  - split; [reflexivity|]. split; [reflexivity|].
    apply Hmono; reflexivity.
  - repeat (split; [reflexivity|]).
    apply Hexact; reflexivity.
Defined.

(** C6 as stated fails at tolerance 0: the corner is exactly the
    expected one, 0 <= 0, and the strict comparison rejects it. *)
Lemma exact_match_fails_at_tolerance_zero :
  eqb (of_Z 240) (of_Z 240) = true
  /\ eqb (of_Z 100) (of_Z 100) = true
  /\ SFleb zero (of_Z 0) = true
  /\ boundingBoxWithin (of_Z 0) (of_Z 240) (of_Z 100) (of_Z 240) (of_Z 100)
     = false.
Proof. repeat split; vm_compute; reflexivity. Qed.




End WindowCentering.

(* ================================================================== *)
(** ** Exit paths of the guarded blocks *)

(** The [try / except Exception / finally] statement shared by the three
    scripts, around any body. *)
Lemma guarded_block_exits (body : M unit) (prefix : string) w h :
  exists shot closed,
    fst (try_finally
           (try_except body is_Exception
              (fun e =>
                 print (WithError prefix e) ;;
                 perform (Screenshot "verification/error.png")))
           (perform BrowserClose) w h)
    = fst (body w h) ++ exit_events prefix (snd (body w h)) shot closed.
Proof.
  unfold try_finally, try_except, exit_events, bind, print, perform.
  destruct (body w h) as [h1 [[]|e]]; cbn [fst snd].
  - exists (Returned tt), (w h1 unit BrowserClose).
    destruct (w h1 unit BrowserClose); reflexivity.
  - destruct (is_Exception e).
    + set (h2 := h1 ++ [Printed (WithError prefix e)]).
      set (shot := w h2 unit (Screenshot "verification/error.png")).
      exists shot,
        (w (h2 ++ [Called (Screenshot "verification/error.png") shot])
           unit BrowserClose).
      destruct shot;
        destruct (w _ unit BrowserClose); subst h2; cbn [fst];
        rewrite <- !app_assoc; reflexivity.
    + exists (Returned tt), (w h1 unit BrowserClose).
      destruct (w h1 unit BrowserClose); reflexivity.
Qed.

(** C5, as the code has it.  In each of the three scripts, from any
    history, the guarded block runs its body and then, on every exit
    path, calls [browser.close()] last; when the body raised an
    [Exception] it first prints the error line and attempts the
    [error.png] screenshot. *)
Theorem guarded_blocks_always_close :
  forall (w : world) (h : history),
    (forall page, exists shot closed,
        fst (WindowCenter.guarded page w h)
        = fst (WindowCenter.verify_window_centering page w h)
          ++ exit_events "Error: "
               (snd (WindowCenter.verify_window_centering page w h))
               shot closed)
    /\ (exists shot closed,
          fst (Activity.guarded w h)
          = fst (Activity.checks w h)
            ++ exit_events "Error: " (snd (Activity.checks w h)) shot closed)
    /\ (exists shot closed,
          fst (ContextMenu.guarded w h)
          = fst (ContextMenu.checks w h)
            ++ exit_events "Error during verification: "
                 (snd (ContextMenu.checks w h)) shot closed).
Proof.
  intros w h. split; [|split].
  - intros page. apply guarded_block_exits.
  - apply guarded_block_exits.
  - apply guarded_block_exits.
Qed.

(** C5 as stated fails: when the first navigation of the context-menu
    script is refused, the error escapes before the guarded block, with
    neither a screenshot nor [browser.close()]. *)
Lemma refused_origin_skips_screenshot_and_close :
  let w := failing (goes_to "http://localhost:5173/") connection_refused in
  result ContextMenu.verify_context_menu w = Raised connection_refused
  /\ existsb (is_screenshot "verification/error.png")
       (trace ContextMenu.verify_context_menu w) = false
  /\ existsb is_close (trace ContextMenu.verify_context_menu w) = false.
Proof. repeat split; vm_compute; reflexivity. Qed.

(* ================================================================== *)
(** ** Properties of the whole scenarios *)

Ltac by_monitor bridge m good :=
  rewrite bridge;
  apply (wp_run any_world _ m (fun _ s => good s = true)); [exact I|];
  wp_auto.

Section Scenarios.

Import ContextMenu.

(** C2, as the code has it.  Only the activity script installs the seed
    with [add_init_script], before any navigation.  The context-menu and
    window-centering scripts never call [add_init_script]: they write
    the seed with [page.evaluate] after a completed navigation to the
    origin, and navigate to /desktop only after the completed write. *)
Theorem seed_written_before_desktop_navigation :
  forall w : world,
    preceded is_init_seed is_goto
      (trace Activity.verify_activity_monitor w) = true
    /\ (preceded (completed (is_goto_to origin_url)) is_eval_seed
          (trace verify_context_menu w) = true
        /\ preceded (completed is_eval_seed) (is_goto_to desktop_url)
             (trace verify_context_menu w) = true
        /\ forallb (fun ev => negb (is_add_init_script ev))
             (trace verify_context_menu w) = true)
    /\ (preceded (completed (is_goto_to login_url)) is_eval_seed
          (trace WindowCenter.main w) = true
        /\ preceded (completed is_eval_seed) (is_goto_to desktop_url)
             (trace WindowCenter.main w) = true
        /\ forallb (fun ev => negb (is_add_init_script ev))
             (trace WindowCenter.main w) = true).
Proof.
  intros w. repeat split.
  - by_monitor preceded_observe Activity.verify_activity_monitor not_broken.
  - by_monitor preceded_observe verify_context_menu not_broken.
  - by_monitor preceded_observe verify_context_menu not_broken.
  - apply emits_trace. emits_tac.
  - by_monitor preceded_observe WindowCenter.main not_broken.
  - by_monitor preceded_observe WindowCenter.main not_broken.
  - apply emits_trace. emits_tac.
Qed.

(** C2 as stated fails: in the context-menu script a navigation, which
    runs the application's scripts, comes before any write of the
    seed. *)
Lemma navigation_precedes_seed_write :
  preceded is_seed_write is_goto
    (trace verify_context_menu (quiet None)) = false
  /\ preceded is_seed_write is_goto
       (trace WindowCenter.main (quiet None)) = false.
Proof. split; vm_compute; reflexivity. Qed.









(** C10.  In every run, each negative probe queries the visibility of
    the menu right after its right click returned, and a query that
    raises is immediately followed by the SUCCESS (exception) line, which
    is printed in no other case; and there is a run in which every
    visibility query raises, none returns, and the three negative probes
    all print their SUCCESS (exception) line and are recorded as
    passed. *)
Theorem visibility_exception_reported_as_success :
  (forall w : world,
      followed success_exn raised_visibility (trace verify_context_menu w)
      = true)
  /\ (let w := failing queries_visibility (PlaywrightError "Target closed") in
      records (trace verify_context_menu w)
      = [(Background, Pass); (MenuBar, Pass); (AppIcon, Pass); (Dock, Pass)]
      /\ existsb returned_visibility (trace verify_context_menu w) = false)
  /\ (forall w : world,
        led_by raised_visibility success_exn (trace verify_context_menu w)
        = true
        /\ followed is_visibility_query (completed on_menubar)
             (trace verify_context_menu w) = true
        /\ followed is_visibility_query
             (completed (is_click_on app_icon RightButton))
             (trace verify_context_menu w) = true
        /\ followed is_visibility_query
             (completed (is_click_on dock RightButton))
             (trace verify_context_menu w) = true)
  /\ (let tr := trace verify_context_menu
                  (failing queries_visibility (PlaywrightError "Target closed"))
      in
      existsb raised_visibility tr = true
      /\ existsb (printed_line menubar_success_exn) tr = true
      /\ existsb (printed_line icon_success_exn) tr = true
      /\ existsb (printed_line dock_success_exn) tr = true
      /\ existsb negative_success tr = false).
Proof.
  split; [|split; [|split]].
  - intros w. by_monitor followed_observe verify_context_menu settled.
  - split; vm_compute; reflexivity.
  - intros w. split; [|split; [|split]].
    + by_monitor led_by_observe verify_context_menu not_broken.
    + by_monitor followed_observe verify_context_menu settled.
    + by_monitor followed_observe verify_context_menu settled.
    + by_monitor followed_observe verify_context_menu settled.
  - repeat split; vm_compute; reflexivity.
Qed.

(** The properties above are not vacuous: in the run where every call
    returns, the events they speak of all occur. *)
Lemma quiet_runs_exercise_the_scripts :
  (let tr := trace verify_context_menu (quiet None) in
   existsb (completed (is_goto_to origin_url)) tr = true
   /\ existsb (completed is_eval_seed) tr = true
   /\ existsb (is_goto_to desktop_url) tr = true
   /\ existsb bg_verdict tr = true
   /\ existsb (completed bg_checkpoint) tr = true
   /\ existsb is_dismiss_click tr = true
   /\ existsb on_menubar tr = true
   /\ existsb dock_record tr = true
   /\ existsb is_close tr = true)
  /\ (let tr := trace Activity.verify_activity_monitor (quiet None) in
      existsb is_init_seed tr = true
      /\ existsb is_goto tr = true
      /\ existsb activity_checkpoint tr = true
      /\ existsb is_close tr = true)
  /\ (let tr := trace WindowCenter.main (quiet (Some (box_at 242 98))) in
      existsb (completed (is_goto_to login_url)) tr = true
      /\ existsb (completed is_eval_seed) tr = true
      /\ existsb (completed (is_screenshot "verification/verification.png")) tr
         = true
      /\ existsb window_verdict tr = true
      /\ existsb is_close tr = true).
Proof. repeat split; vm_compute; reflexivity. Qed.

End Scenarios.

(* ================================================================== *)
(** ** Further properties of the comparison *)

Section ComparisonFacts.

Import WindowCenter.

Lemma abs_binary_round_aux s s' m e l :
  SFabs (binary_round_aux prec emax s m e l)
  = SFabs (binary_round_aux prec emax s' m e l).
Proof.
  unfold binary_round_aux.
  destruct (shr_fexp prec emax m e l) as [mrs' e'].
  destruct (shr_fexp prec emax _ e' loc_Exact) as [mrs'' e''].
  destruct (shr_m mrs''); try reflexivity.
  destruct (e'' <=? emax - prec)%Z; reflexivity.
Qed.

Lemma abs_binary_normalize_opp m e :
  SFabs (binary_normalize prec emax (- m) e false)
  = SFabs (binary_normalize prec emax m e false).
Proof.
  destruct m as [|p|p]; simpl; try reflexivity;
    unfold binary_round;
    destruct (shl_align p e _) as [mz ez]; apply abs_binary_round_aux.
Qed.

(** |x - y| = |y - x| on binary64 values, whatever they are. *)
Lemma abs_sub_comm x y : abs (sub x y) = abs (sub y x).
Proof.
  unfold abs, sub.
  destruct x as [sx|sx| |sx mx ex], y as [sy|sy| |sy my ey];
    try reflexivity;
    try (destruct sx, sy; reflexivity);
    try (destruct sx; reflexivity); try (destruct sy; reflexivity).
  unfold SFsub. rewrite (Z.min_comm ey ex).
  set (ez := Z.min ex ey).
  set (a := cond_Zopp sx (Z.pos (fst (shl_align mx ex ez)))).
  set (b := cond_Zopp sy (Z.pos (fst (shl_align my ey ez)))).
  replace (b - a) with (- (a - b)) by lia.
  symmetry. apply abs_binary_normalize_opp.
Qed.

(** Only a finite difference is below a tolerance. *)
Lemma below_tolerance_finite x y T :
  ltb (abs (sub x y)) T = true -> is_finite x = true /\ is_finite y = true.
Proof.
  unfold ltb, abs, sub.
  destruct x as [sx|sx| |sx mx ex], y as [sy|sy| |sy my ey]; simpl;
    try (intros; split; reflexivity);
    try (destruct sx, sy; simpl); try discriminate;
    try (destruct T as [st|st| |st mt et]; try destruct st; discriminate).
Qed.

(** X1.  A corner and an expected position that pass the comparison, at
    any tolerance, are finite numbers: a NaN or an infinite coordinate
    never passes. *)
Theorem passing_comparison_has_finite_operands :
  forall (T ax ay ex ey : float),
    boundingBoxWithin T ax ay ex ey = true ->
    is_finite ax = true /\ is_finite ay = true
    /\ is_finite ex = true /\ is_finite ey = true.
Proof.
  intros T ax ay ex ey H. unfold boundingBoxWithin in H.
  apply andb_true_iff in H. destruct H as [Hx Hy].
  apply below_tolerance_finite in Hx. apply below_tolerance_finite in Hy.
  tauto.
Qed.

Lemma passing_comparison_has_finite_operands_witness :
  boundingBoxWithin (of_Z 5) (of_Z 242) (of_Z 98) (of_Z 240) (of_Z 100) = true
  /\ is_finite (of_Z 242) = true /\ is_finite (of_Z 98) = true
  /\ is_finite (of_Z 240) = true /\ is_finite (of_Z 100) = true.
Proof.
  split; [reflexivity|].
  apply (passing_comparison_has_finite_operands (of_Z 5)). reflexivity.
Defined.

(** X2.  The comparison is symmetric: exchanging the actual corner and
    the expected one never changes its result, for all binary64 values
    (NaN and infinities included). *)
Theorem comparison_is_symmetric :
  forall (T ax ay ex ey : float),
    boundingBoxWithin T ax ay ex ey = boundingBoxWithin T ex ey ax ay.
Proof.
  intros. unfold boundingBoxWithin.
  rewrite (abs_sub_comm ax ex), (abs_sub_comm ay ey). reflexivity.
Qed.

End ComparisonFacts.

(* ================================================================== *)
(** ** Further properties of the scenarios *)



(** The run of the [try / except Exception / finally] statement of the
    scripts, around any body: its events and its outcome. *)
Lemma guarded_block_run (body : M unit) (prefix : string) w h :
  exists shot closed,
    try_finally
      (try_except body is_Exception
         (fun e =>
            print (WithError prefix e) ;;
            perform (Screenshot "verification/error.png")))
      (perform BrowserClose) w h
    = (fst (body w h) ++ exit_events prefix (snd (body w h)) shot closed,
       exit_outcome (snd (body w h)) shot closed).
Proof.
  unfold try_finally, try_except, exit_events, exit_outcome, bind, print,
    perform.
  destruct (body w h) as [h1 [[]|e]]; cbn [fst snd].
  - exists (Returned tt), (w h1 unit BrowserClose).
    destruct (w h1 unit BrowserClose); reflexivity.
  - destruct (is_Exception e).
    + set (h2 := h1 ++ [Printed (WithError prefix e)]).
      set (shot := w h2 unit (Screenshot "verification/error.png")).
      exists shot,
        (w (h2 ++ [Called (Screenshot "verification/error.png") shot])
           unit BrowserClose).
      destruct shot;
        destruct (w _ unit BrowserClose); subst h2; cbn [fst];
        rewrite <- !app_assoc; reflexivity.
    + exists (Returned tt), (w h1 unit BrowserClose).
      destruct (w h1 unit BrowserClose); reflexivity.
Qed.

(** X3.  The outcome of the guarded block of each script: an
    [Exception] raised by the body is swallowed, the block then ends as
    the error screenshot does; any other exception of the body
    propagates; and an exception of [browser.close()] replaces whatever
    outcome was pending. *)
Theorem guarded_blocks_outcome :
  forall (w : world) (h : history),
    (forall page, exists shot closed,
        WindowCenter.guarded page w h
        = (fst (WindowCenter.verify_window_centering page w h)
             ++ exit_events "Error: "
                  (snd (WindowCenter.verify_window_centering page w h))
                  shot closed,
           exit_outcome (snd (WindowCenter.verify_window_centering page w h))
             shot closed))
    /\ (exists shot closed,
          Activity.guarded w h
          = (fst (Activity.checks w h)
               ++ exit_events "Error: " (snd (Activity.checks w h))
                    shot closed,
             exit_outcome (snd (Activity.checks w h)) shot closed))
    /\ (exists shot closed,
          ContextMenu.guarded w h
          = (fst (ContextMenu.checks w h)
               ++ exit_events "Error during verification: "
                    (snd (ContextMenu.checks w h)) shot closed,
             exit_outcome (snd (ContextMenu.checks w h)) shot closed)).
Proof.
  intros w h. split; [|split].
  - intros page. apply guarded_block_run.
  - apply guarded_block_run.
  - apply guarded_block_run.
Qed.

(** An outcome that no world with soft failures gives. *)
Ltac not_soft H :=
  let w := fresh "w" in
  let h := fresh "h" in
  let Hw := fresh "Hw" in
  let E := fresh "E" in
  let a := fresh "a" in
  let Ea := fresh "Ea" in
  destruct H as [w [h [Hw E]]];
  lazymatch type of E with
  | _ _ ?T ?c = _ => destruct (proj1 Hw h T c eq_refl) as [a Ea]
  end;
  congruence.

Lemma soft_raise {A} (c : call A) e :
  possible soft_failures c (Raised e) -> is_Exception e = true.
Proof. intros [w [h [Hw E]]]. exact (proj2 Hw h A c e E). Qed.

(** As [wp_step], keeping for each raised exception that it is an
    [Exception], and entering every part of the script. *)
Ltac soft_step :=
  cbv beta iota;
  lazymatch goal with
  | |- wp _ _ (perform _) _ _ =>
      apply wp_perform;
      let r := fresh "r" in
      let H := fresh "H" in
      intros [r|r] H;
      [ clear H
      | first [ exfalso; solve [not_soft H] | apply soft_raise in H ] ];
      try lazymatch type of r with
          | bool => destruct r
          | nat => destruct r
          | option _ => destruct r
          end;
      cbv beta iota
  | |- wp _ _ (bind _ _) _ _ => apply wp_bind
  | |- wp _ _ (try_except _ _ _) _ _ => apply wp_try_except
  | |- wp _ _ (try_finally _ _) _ _ => apply wp_try_finally
  | |- wp _ _ (print _) _ _ => apply wp_print; cbv beta iota
  | |- wp _ _ (ret _) _ _ => apply wp_ret
  | |- wp _ _ (raise _) _ _ => apply wp_raise
  | |- wp _ _ (if ?b then _ else _) _ _ =>
      lazymatch b with
      | Nat.ltb _ _ => let b' := eval compute in b in change b with b'
      | _ => destruct b
      end
  | |- wp _ _ (match ?x with _ => _ end) _ _ => destruct x
  | |- wp _ _ ?m _ _ => let f := head_of m in unfold f
  | H : is_Exception ?e = true |- if is_Exception ?e then _ else _ =>
      rewrite H
  | |- if is_Exception (OverflowError ?m) then _ else _ =>
      change (is_Exception (OverflowError m)) with true; cbv iota
  | |- if is_Exception (ZeroDivisionError ?m) then _ else _ =>
      change (is_Exception (ZeroDivisionError m)) with true; cbv iota
  | |- if any_exn ?e then _ else _ => change (any_exn e) with true; cbv iota
  end.

Ltac soft_auto :=
  repeat soft_step;
  repeat match goal with r : unit |- _ => destruct r end;
  reflexivity.

(** X4.  When the calls outside the [try] bodies return and the
    exceptions raised are [Exception]s, each script ends normally,
    whatever fails inside its [try] body: a failed verification is
    reported on the output, never by the outcome of the run. *)
Theorem soft_failures_end_normally :
  forall w : world,
    soft_failures w ->
    result WindowCenter.main w = Returned tt
    /\ result Activity.verify_activity_monitor w = Returned tt
    /\ result ContextMenu.verify_context_menu w = Returned tt.
Proof.
  intros w Hw. repeat split.
  - apply (wp_run soft_failures blind WindowCenter.main
             (fun r _ => r = Returned tt) tt w Hw).
    soft_auto.
  - apply (wp_run soft_failures blind Activity.verify_activity_monitor
             (fun r _ => r = Returned tt) tt w Hw).
    soft_auto.
  - apply (wp_run soft_failures blind ContextMenu.verify_context_menu
             (fun r _ => r = Returned tt) tt w Hw).
    soft_auto.
Qed.

Lemma blank_page_soft : soft_failures (failing page_is_blank timed_out).
Proof.
  split.
  - intros h A c Hc. destruct c; simpl in Hc; try discriminate;
      eexists; reflexivity.
  - intros h A c e. destruct c; simpl; intros E; inversion E; reflexivity.
Qed.

Lemma soft_failures_end_normally_witness :
  soft_failures (failing page_is_blank timed_out)
  /\ result WindowCenter.main (failing page_is_blank timed_out) = Returned tt
  /\ result Activity.verify_activity_monitor (failing page_is_blank timed_out)
     = Returned tt
  /\ result ContextMenu.verify_context_menu (failing page_is_blank timed_out)
     = Returned tt.
Proof.
  split; [exact blank_page_soft|].
  exact (soft_failures_end_normally _ blank_page_soft).
Defined.

Section MoreScenarios.

Import ContextMenu.

Ltac by_monitor_all :=
  repeat split;
  first
    [ by_monitor preceded_observe WindowCenter.main not_broken
    | by_monitor preceded_observe Activity.verify_activity_monitor not_broken
    | by_monitor preceded_observe verify_context_menu not_broken
    | by_monitor never_after_observe WindowCenter.main not_broken
    | by_monitor never_after_observe Activity.verify_activity_monitor not_broken
    | by_monitor never_after_observe verify_context_menu not_broken
    | by_monitor followed_observe WindowCenter.main settled
    | by_monitor followed_observe Activity.verify_activity_monitor settled
    | by_monitor followed_observe verify_context_menu settled
    | by_monitor eventually_observe WindowCenter.main settled
    | by_monitor eventually_observe Activity.verify_activity_monitor settled
    | by_monitor eventually_observe verify_context_menu settled
    | by_monitor led_by_observe WindowCenter.main not_broken
    | by_monitor led_by_observe Activity.verify_activity_monitor not_broken
    | by_monitor led_by_observe verify_context_menu not_broken ].

(** X5.  The driver session of [with sync_playwright()]: in every run of
    each script nothing happens before the driver has started, the driver
    is stopped whenever it had started, also when the launch or the setup
    fails, and nothing happens after it is stopped. *)
Theorem driver_session_protocol :
  forall w : world,
    session_protocol (trace WindowCenter.main w)
    /\ session_protocol (trace Activity.verify_activity_monitor w)
    /\ session_protocol (trace verify_context_menu w).
Proof. intros w. unfold session_protocol. by_monitor_all. Qed.

(** X6.  The lifetime of the browser: once the last statement before
    the [try] block has returned, [browser.close()] is called later in
    the run, and after [browser.close()] the scripts only stop the
    driver. *)
Theorem browser_closed_once_setup_completes :
  forall w : world,
    (eventually_followed is_close (completed is_new_page)
       (trace WindowCenter.main w) = true
     /\ never_after not_stop is_close (trace WindowCenter.main w) = true)
    /\ (eventually_followed is_close is_init_seed
          (trace Activity.verify_activity_monitor w) = true
        /\ never_after not_stop is_close
             (trace Activity.verify_activity_monitor w) = true)
    /\ (eventually_followed is_close (completed is_eval_seed)
          (trace verify_context_menu w) = true
        /\ never_after not_stop is_close (trace verify_context_menu w) = true).
Proof. intros w. by_monitor_all. Qed.

(** X7.  Readiness before interaction: no script moves or clicks the
    mouse before its readiness condition has been met; the
    window-centering script takes its screenshot and queries the
    bounding box only after the window has appeared, and the activity
    script takes its checkpoint screenshot only after the last table
    header has been seen. *)
Theorem no_interaction_before_readiness :
  forall w : world,
    preceded (waited_for ".desktop-menubar" true) is_pointer
      (trace verify_context_menu w) = true
    /\ (preceded (waited_for ".desktop-icon" true) is_pointer
          (trace WindowCenter.main w) = true
        /\ preceded (waited_for ".desktop-window" true)
             (is_screenshot "verification/verification.png")
             (trace WindowCenter.main w) = true
        /\ preceded (waited_for ".desktop-window" true) is_box_query
             (trace WindowCenter.main w) = true)
    /\ (preceded (saw_visible Activity.activity_icon) is_pointer
          (trace Activity.verify_activity_monitor w) = true
        /\ preceded (saw_visible (ByText "% CPU")) activity_checkpoint
             (trace Activity.verify_activity_monitor w) = true).
Proof. intros w. by_monitor_all. Qed.

(** X8.  The app-icon and dock probes never click a missing element: a
    right click on either is made only after its locator counted at
    least one element, and a count of zero leads to the warning line and
    to nothing else (the warning is printed in no other case). *)
Theorem missing_elements_are_not_clicked :
  forall w : world,
    let tr := trace verify_context_menu w in
    (preceded (counted true app_icon) (is_click_on app_icon RightButton) tr
     = true
     /\ followed (printed_line icon_warning) (counted false app_icon) tr = true
     /\ led_by (counted false app_icon) (printed_line icon_warning) tr = true)
    /\ (preceded (counted true dock) (is_click_on dock RightButton) tr = true
        /\ followed (printed_line dock_warning) (counted false dock) tr = true
        /\ led_by (counted false dock) (printed_line dock_warning) tr = true).
Proof. intros w tr. subst tr. by_monitor_all. Qed.

(** X9.  Each verdict line of the context-menu script tells what the
    driver answered.  A negative probe prints FAILURE right after a
    visibility query that returned true and in no other case, SUCCESS
    right after one that returned false and in no other case, and the
    SUCCESS line marked (exception) only right after one that raised; the
    background probe prints SUCCESS right after the wait for the menu
    returned and FAILURE right after it raised, and in no other case. *)
Theorem verdict_lines_reflect_observations :
  forall w : world,
    let tr := trace verify_context_menu w in
    (followed negative_failure (visibility_is true) tr = true
     /\ led_by (visibility_is true) negative_failure tr = true)
    /\ (followed negative_success (visibility_is false) tr = true
        /\ led_by (visibility_is false) negative_success tr = true)
    /\ led_by raised_visibility success_exn tr = true
    /\ (followed (printed_line bg_success) (waited_for menu_selector true) tr
        = true
        /\ led_by (waited_for menu_selector true) (printed_line bg_success) tr
           = true)
    /\ (followed (printed_line bg_failure) (waited_for menu_selector false) tr
        = true
        /\ led_by (waited_for menu_selector false) (printed_line bg_failure) tr
           = true).
Proof. intros w tr. subst tr. by_monitor_all. Qed.

(** X10.  In the activity script the line "Screenshot captured" is
    printed right after the checkpoint screenshot returned and in no
    other case; it never appears in a run in which a visibility assertion
    failed or in which the error line is printed. *)
Theorem captured_line_means_all_passed :
  forall w : world,
    let tr := trace Activity.verify_activity_monitor w in
    followed captured (completed activity_checkpoint) tr = true
    /\ led_by (completed activity_checkpoint) captured tr = true
    /\ never_after captured raised_expect tr = true
    /\ never_after raised_expect captured tr = true
    /\ never_after captured is_error_line tr = true
    /\ never_after is_error_line captured tr = true.
Proof. intros w tr. subst tr. by_monitor_all. Qed.

(** X11.  The probes of the context-menu script run in the order of the
    script: the background verdict comes after the right button was
    released, the menu-bar probe after the dismissing click, the count
    of app icons after the right click on the menu bar returned, the
    count of docks after the count of app icons returned, and the last
    screenshot after the count of docks returned. *)
Theorem probes_run_in_order :
  forall w : world,
    let tr := trace verify_context_menu w in
    preceded right_button_released bg_verdict tr = true
    /\ preceded (completed is_dismiss_click) on_menubar tr = true
    /\ preceded (completed on_menubar) (is_count_of app_icon) tr = true
    /\ preceded (completed (is_count_of app_icon)) (is_count_of dock) tr = true
    /\ preceded (completed (is_count_of dock))
         (is_screenshot "verification/no_context_menu.png") tr = true.
Proof. intros w tr. subst tr. by_monitor_all. Qed.

(** X12.  In every run of the context-menu script, complete or cut
    short, the records printed are in the order background, menu bar,
    app icon, dock, and no region gets two records. *)
Theorem records_in_probe_order :
  forall w : world,
    in_probe_order (records (trace verify_context_menu w)) = true.
Proof.
  intros w.
  change (records (trace verify_context_menu w))
    with ([] ++ records (trace verify_context_menu w)).
  rewrite <- records_observe.
  apply (wp_run any_world _ verify_context_menu
           (fun _ s => in_probe_order s = true)); [exact I|].
  wp_auto.
Qed.

(** The properties above are not vacuous: a missing app icon, a menu
    that is visible everywhere and a page on which every check times out
    give runs in which the events they speak of occur. *)
Lemma other_runs_exercise_the_scripts :
  (let tr := trace verify_context_menu no_app_icon in
   existsb (counted false app_icon) tr = true
   /\ existsb (printed_line icon_warning) tr = true
   /\ existsb (counted true dock) tr = true
   /\ existsb (is_click_on dock RightButton) tr = true
   /\ existsb (visibility_is false) tr = true
   /\ existsb negative_success tr = true
   /\ existsb (waited_for menu_selector true) tr = true)
  /\ (let tr := trace verify_context_menu menu_everywhere in
      existsb (visibility_is true) tr = true
      /\ records tr
         = [(Background, Pass); (MenuBar, Fail); (AppIcon, Fail); (Dock, Fail)])
  /\ (let tr := trace verify_context_menu (failing page_is_blank timed_out) in
      existsb (waited_for ".desktop-menubar" false) tr = true
      /\ existsb is_error_line tr = true
      /\ existsb is_pointer tr = false)
  /\ (let tr := trace Activity.verify_activity_monitor (quiet None) in
      existsb captured tr = true
      /\ existsb (saw_visible Activity.activity_icon) tr = true
      /\ existsb is_pointer tr = true).
Proof. repeat split; vm_compute; reflexivity. Qed.

End MoreScenarios.

(* ================================================================== *)
(** ** The verdict of a whole run of the window-centering script *)

Lemma run_try_except {A} (body : M A) catches handler w h :
  try_except body catches handler w h
  = match body w h with
    | (h', Returned a) => (h', Returned a)
    | (h', Raised e) => if catches e then handler e w h' else (h', Raised e)
    end.
Proof. reflexivity. Qed.

Lemma run_try_finally {A} (body : M A) final w h :
  try_finally body final w h
  = match body w h with
    | (h', r) =>
        match final w h' with
        | (h'', Returned _) => (h'', r)
        | (h'', Raised e) => (h'', Raised e)
        end
    end.
Proof. reflexivity. Qed.

Section WholeRun.

Import WindowCenter.

#[local] Arguments of_Z : simpl never.
#[local] Arguments int_true_div : simpl never.
#[local] Arguments sub : simpl never.
#[local] Arguments abs : simpl never.
#[local] Arguments ltb : simpl never.

Ltac main_step w :=
  first
    [ rewrite run_try_except
    | rewrite run_try_finally
    | run_step w
    | match goal with
      | |- context [is_Exception ?e] => destruct (is_Exception e)
      end; cbv beta iota ].

(** X13.  In every run of [__main__], which fixes the viewport at
    1280x800, when the browser reports a box the success line is printed
    if and only if its corner is strictly within 5 of (240, 100) on both
    axes, and the failure line is printed otherwise; the two lines never
    appear together. *)
Theorem main_verdict_against_240_100 :
  forall (w : world) (box : BoundingBox),
    observed_box (trace main w) = Some box ->
    (passes (trace main w) = true <->
     ltb (abs (sub (box_x box) (of_Z 240))) (of_Z 5) = true
     /\ ltb (abs (sub (box_y box) (of_Z 100))) (of_Z 5) = true)
    /\ fails (trace main w) = negb (passes (trace main w)).
Proof.
  intros w box.
  assert (Ex : expected_x main_viewport = of_Z 240) by (vm_compute; reflexivity).
  assert (Ey : expected_y main_viewport = of_Z 100) by (vm_compute; reflexivity).
  unfold trace.
  set (P := fun r : history * outcome unit =>
              observed_box (fst r) = Some box ->
              (passes (fst r) = true <->
               ltb (abs (sub (box_x box) (of_Z 240))) (of_Z 5) = true
               /\ ltb (abs (sub (box_y box) (of_Z 100))) (of_Z 5) = true)
              /\ fails (fst r) = negb (passes (fst r))).
  change (P (main w [])).
  unfold main, with_sync_playwright, guarded, verify_window_centering.
  repeat main_step w;
    unfold check_coordinates, true_divide; cbn [viewport_size];
    try change (Z.eqb 2 0) with false; cbv iota;
    fold (expected_x main_viewport) (expected_y main_viewport);
    try rewrite Ex, Ey;
    try change (is_finite (of_Z 240)) with true;
    try change (is_finite (of_Z 100)) with true; cbv iota;
    repeat main_step w;
    try match goal with
        | |- context [if boundingBoxWithin ?t ?x ?y ?a ?b then _ else _] =>
            destruct (boundingBoxWithin t x y a b) eqn:Hc
        end;
    repeat main_step w;
    subst P; cbv beta; cbn [fst observed_box]; intros Hbox;
    try discriminate Hbox;
    injection Hbox as ->;
    unfold passes, fails; simpl; (split; [|reflexivity]);
    unfold boundingBoxWithin in Hc.
  all: try (apply andb_true_iff in Hc; intuition).
  all: split; [discriminate|]; intros [H1 H2];
    rewrite H1, H2 in Hc; discriminate.
Qed.

Lemma main_verdict_against_240_100_witness :
  observed_box (trace main (quiet (Some (box_at 242 98))))
  = Some (box_at 242 98)
  /\ (passes (trace main (quiet (Some (box_at 242 98)))) = true <->
      ltb (abs (sub (of_Z 242) (of_Z 240))) (of_Z 5) = true
      /\ ltb (abs (sub (of_Z 98) (of_Z 100))) (of_Z 5) = true).
Proof.
  split; [vm_compute; reflexivity|].
  apply (main_verdict_against_240_100 (quiet (Some (box_at 242 98)))
           (box_at 242 98)).
  vm_compute; reflexivity.
Defined.

End WholeRun.
